(** * Scholarship eligibility rule engine (LAB_REPORT_3.py)

    A shallow embedding of the rule engine of [LAB_REPORT_3.py]
    ([OPS], [DEFAULT_RULES], [evaluate_condition], [rule_matches],
    [run_rules] and the loading of the edited rule document), and the
    properties of it that the specification states.

    The engine is dynamically typed: rules arrive from [json.loads], so a
    rule, a condition or a priority can be any JSON value.  The embedding
    keeps that: Python values are the inductive [value], and every
    operation that can raise returns a [result]. *)

From Stdlib Require Import ZArith List Permutation Sorted Bool.
From Stdlib Require Import PrimFloat SpecFloat FloatOps.
From Stdlib Require Import Ascii String.
From stdpp Require Import gmap strings sorting.

Local Open Scope string_scope.
Local Open Scope list_scope.
Local Open Scope Z_scope.
#[local] Set Warnings "-register-all,-inexact-float".

(** ** Python values *)

(** The values [json.loads] produces, which are also the values of the
    facts mapping.  A [str] is its UTF-8 byte string; a JSON object is the
    list of its items in insertion order (keys are strings).  Values are
    compared by content: object identity is not modelled. *)
Inductive value : Type :=
| VNone
| VBool (b : bool)
| VInt (z : Z)
| VFloat (f : float)
| VStr (s : string)
| VList (l : list value)
| VDict (d : list (string * value)).

(** The exceptions the engine can meet. *)
Inductive exn : Type := KeyError | TypeError | ValueError | IndexError.

(** A computation that returns or raises. *)
Inductive result (A : Type) : Type :=
| Ok (a : A)
| Raise (e : exn).
Arguments Ok {A} a.
Arguments Raise {A} e.

#[global] Instance exn_eq_dec : EqDecision exn.
Proof. solve_decision. Defined.
#[global] Instance result_eq_dec {A : Type} `{EqDecision A} :
  EqDecision (result A).
Proof. solve_decision. Defined.

#[global] Instance result_ret : MRet result := @Ok.
#[global] Instance result_bind : MBind result :=
  λ A B f m, match m with Ok a => f a | Raise e => Raise e end.
#[global] Instance result_fmap : FMap result :=
  λ A B f m, match m with Ok a => Ok (f a) | Raise e => Raise e end.

(** ** Numbers *)

(** [bool], [int] and [float] compare with each other by numeric value. *)
Inductive num : Type := NInt (z : Z) | NFloat (f : float).

Definition as_num (v : value) : option num :=
  match v with
  | VBool b => Some (NInt (Z.b2z b))
  | VInt z => Some (NInt z)
  | VFloat f => Some (NFloat f)
  | _ => None
  end.

(** Python compares an [int] with a [float] exactly, not through a
    conversion of the [int]: [None] is "unordered" (the float is a NaN). *)
Definition Z_SF_compare (z : Z) (f : spec_float) : option comparison :=
  match f with
  | S754_nan => None
  | S754_zero _ => Some (z ?= 0)
  | S754_infinity neg => Some (if neg then Gt else Lt)
  | S754_finite neg m e =>
      let mz := if neg then Z.neg m else Z.pos m in
      Some (match e with
            | Z0 => z ?= mz
            | Z.pos _ => z ?= mz * 2 ^ e
            | Z.neg p => z * 2 ^ Z.pos p ?= mz
            end)
  end.

Definition float_compare (f g : float) : option comparison :=
  match PrimFloat.compare f g with
  | FEq => Some Eq
  | FLt => Some Lt
  | FGt => Some Gt
  | FNotComparable => None
  end.

Definition num_compare (x y : num) : option comparison :=
  match x, y with
  | NInt a, NInt b => Some (a ?= b)
  | NInt a, NFloat g => Z_SF_compare a (Prim2SF g)
  | NFloat f, NInt b => CompOpp <$> Z_SF_compare b (Prim2SF f)
  | NFloat f, NFloat g => float_compare f g
  end.

(** The four ordered comparisons, [<], [<=], [>] and [>=]. *)
Inductive ordop : Type := OLt | OLe | OGt | OGe.

Definition ord_holds (o : ordop) (c : comparison) : bool :=
  match o, c with
  | OLt, Lt | OLe, Lt | OLe, Eq | OGt, Gt | OGe, Gt | OGe, Eq => true
  | _, _ => false
  end.

(** An unordered pair (a NaN on either side) satisfies no ordered
    comparison and is not equal. *)
Definition num_ord (o : ordop) (x y : num) : bool :=
  match num_compare x y with
  | Some c => ord_holds o c
  | None => false
  end.

Definition num_eqb (x y : num) : bool :=
  match num_compare x y with
  | Some Eq => true
  | _ => false
  end.

(** ** Strings *)

(** The first byte of a UTF-8 encoded character is any byte that is not
    of the form [10xxxxxx]. *)
Definition utf8_continuation (c : ascii) : bool :=
  match c with
  | Ascii _ _ _ _ _ _ false true => true
  | _ => false
  end.

(** The characters of a [str], each as a [str] of length one: what
    iterating over a string yields. *)
Fixpoint utf8_chars_aux (cur : string) (s : string) : list string :=
  match s with
  | EmptyString => [cur]
  | String c s' =>
      if utf8_continuation c
      then utf8_chars_aux (cur +:+ String c EmptyString) s'
      else cur :: utf8_chars_aux (String c EmptyString) s'
  end.

Definition utf8_chars (s : string) : list string :=
  match s with
  | EmptyString => []
  | String c s' => utf8_chars_aux (String c EmptyString) s'
  end.

(** [s in t] for two strings. *)
Fixpoint is_substring (s t : string) : bool :=
  String.prefix s t ||
  match t with
  | EmptyString => false
  | String _ t' => is_substring s t'
  end.

(** ** Dictionaries *)

(** Lookup in the items of a JSON object. *)
Fixpoint assoc (k : string) (d : list (string * value)) : option value :=
  match d with
  | [] => None
  | (k', v) :: d' => if String.eqb k k' then Some v else assoc k d'
  end.

(** ** Comparison operators *)

(** [a == b].  Numbers compare by value, strings, lists and dictionaries
    by content (a dictionary regardless of the order of its items), and
    values of different kinds are unequal.  Equality never raises. *)
Fixpoint py_eq (a b : value) {struct a} : bool :=
  match a, b with
  | VNone, VNone => true
  | VStr s, VStr t => String.eqb s t
  | VList l, VList m =>
      (fix all_eq (l m : list value) : bool :=
         match l, m with
         | [], [] => true
         | x :: l', y :: m' => py_eq x y && all_eq l' m'
         | _, _ => false
         end) l m
  | VDict d, VDict e =>
      Nat.eqb (length d) (length e) &&
      (fix sub_eq (d : list (string * value)) : bool :=
         match d with
         | [] => true
         | (k, x) :: d' =>
             match assoc k e with
             | Some y => py_eq x y
             | None => false
             end && sub_eq d'
         end) d
  | _, _ =>
      match as_num a, as_num b with
      | Some x, Some y => num_eqb x y
      | _, _ => false
      end
  end.

Definition string_ord (o : ordop) (s t : string) : bool :=
  ord_holds o (String.compare s t).

(** [a < b], [a <= b], [a > b], [a >= b].  Numbers are ordered by value,
    strings by code point, lists lexicographically (the first pair of
    unequal items decides, else the lengths); any other pair raises
    [TypeError]. *)
Fixpoint py_order (o : ordop) (a b : value) {struct a} : result bool :=
  match a, b with
  | VStr s, VStr t => Ok (string_ord o s t)
  | VList l, VList m =>
      (fix lex (l m : list value) : result bool :=
         match l, m with
         | x :: l', y :: m' =>
             if py_eq x y then lex l' m' else py_order o x y
         | _, _ => Ok (ord_holds o (Nat.compare (length l) (length m)))
         end) l m
  | _, _ =>
      match as_num a, as_num b with
      | Some x, Some y => Ok (num_ord o x y)
      | _, _ => Raise TypeError
      end
  end.

(** [a in b].  A list contains its items, a string its substrings (and
    accepts only a string on the left), a dictionary its keys (and
    rejects an unhashable left operand); anything else is not a
    container.  (Python tests an item for identity before equality;
    values are compared by content here, which differs only for a NaN
    that is one and the same object on both sides, and the facts the
    page builds and the rules it parses share no object.) *)
Definition py_contains (a b : value) : result bool :=
  match b with
  | VList m => Ok (existsb (λ x, py_eq x a) m)
  | VStr t =>
      match a with
      | VStr s => Ok (is_substring s t)
      | _ => Raise TypeError
      end
  | VDict d =>
      match a with
      | VStr s => Ok (bool_decide (is_Some (assoc s d)))
      | VList _ | VDict _ => Raise TypeError
      | _ => Ok false
      end
  | _ => Raise TypeError
  end.

Definition operator_eq (a b : value) : result bool := Ok (py_eq a b).
Definition operator_ne (a b : value) : result bool := Ok (negb (py_eq a b)).
Definition operator_gt : value → value → result bool := py_order OGt.
Definition operator_ge : value → value → result bool := py_order OGe.
Definition operator_lt : value → value → result bool := py_order OLt.
Definition operator_le : value → value → result bool := py_order OLe.

(** The operator table, in the order of the source. *)
Definition OPS_items : list (string * (value → value → result bool)) :=
  [ ("==", operator_eq);
    ("!=", operator_ne);
    (">", operator_gt);
    (">=", operator_ge);
    ("<", operator_lt);
    ("<=", operator_le);
    ("in", λ a b, py_contains a b);
    ("not_in", λ a b, negb <$> py_contains a b) ].

Definition OPS : gmap string (value → value → result bool) :=
  list_to_map OPS_items.

(** ** Subscripts, membership and iteration *)

(** [key in m] for a dictionary [m] whose keys are strings: an
    unhashable key raises, a key that is not a string is absent. *)
Definition contains_key {V : Type} (m : gmap string V) (key : value)
  : result bool :=
  match key with
  | VStr s => Ok (bool_decide (is_Some (m !! s)))
  | VList _ | VDict _ => Raise TypeError
  | _ => Ok false
  end.

(** [m[key]] for such a dictionary. *)
Definition getitem {V : Type} (m : gmap string V) (key : value) : result V :=
  match key with
  | VStr s =>
      match m !! s with
      | Some v => Ok v
      | None => Raise KeyError
      end
  | VList _ | VDict _ => Raise TypeError
  | _ => Raise KeyError
  end.

(** [v[k]] for a value [v] and a string constant [k]: only a dictionary
    can be subscripted by a string. *)
Definition subscript (v : value) (k : string) : result value :=
  match v with
  | VDict d =>
      match assoc k d with
      | Some x => Ok x
      | None => Raise KeyError
      end
  | _ => Raise TypeError
  end.

(** The items that iterating over [v] yields: the items of a list, the
    characters of a string, the keys of a dictionary. *)
Definition py_iter (v : value) : result (list value) :=
  match v with
  | VList l => Ok l
  | VStr s => Ok (VStr <$> utf8_chars s)
  | VDict d => Ok ((λ kv, VStr kv.1) <$> d)
  | _ => Raise TypeError
  end.

(** [a, b, c = v]. *)
Definition unpack3 (v : value) : result (value * value * value) :=
  items ← py_iter v;
  match items with
  | [a; b; c] => Ok (a, b, c)
  | _ => Raise ValueError
  end.

(** [all(f(c) for c in l)]: stops at the first false item. *)
Fixpoint py_all (f : value → result bool) (l : list value) : result bool :=
  match l with
  | [] => Ok true
  | c :: l' => b ← f c; if (b : bool) then py_all f l' else Ok false
  end.

(** [[r for r in l if f(r)]]. *)
Fixpoint py_filter (f : value → result bool) (l : list value)
  : result (list value) :=
  match l with
  | [] => Ok []
  | r :: l' =>
      b ← f r;
      rest ← py_filter f l';
      Ok (if (b : bool) then r :: rest else rest)
  end.

(** ** [sorted] *)

(** [sorted(l, key=key, reverse=True)] computes the key of every item
    first, in order; it then reverses the list, sorts it in ascending
    order of key with a stable sort that compares keys with [<] only, and
    reverses the outcome.  The stable sort is an insertion sort here: on
    keys that [<] orders totally every stable sort returns the same list.
    (On keys that [<] does not order totally, such as a NaN among floats,
    the list Python returns depends on its own algorithm.) *)
Fixpoint decorate (key : value → result value) (l : list value)
  : result (list (value * value)) :=
  match l with
  | [] => Ok []
  | x :: l' =>
      k ← key x;
      rest ← decorate key l';
      Ok ((k, x) :: rest)
  end.

(** Insert [x] after the items that are not greater than it. *)
Fixpoint insert_by_key (x : value * value) (l : list (value * value))
  : result (list (value * value)) :=
  match l with
  | [] => Ok [x]
  | y :: l' =>
      lt ← py_order OLt x.1 y.1;
      if (lt : bool) then Ok (x :: y :: l')
      else rest ← insert_by_key x l'; Ok (y :: rest)
  end.

Fixpoint sort_by_key (acc l : list (value * value))
  : result (list (value * value)) :=
  match l with
  | [] => Ok acc
  | x :: l' => acc' ← insert_by_key x acc; sort_by_key acc' l'
  end.

Definition sorted_reverse (key : value → result value) (l : list value)
  : result (list value) :=
  keyed ← decorate key l;
  s ← sort_by_key [] (reverse keyed);
  Ok ((reverse s).*2).

(** ** The rule engine *)

(** The five rules of [DEFAULT_RULES], in the order of the source. *)
Definition top_merit : value :=
  VDict
    [ ("name", VStr "Top merit candidate");
      ("priority", VInt 100);
      ("conditions",
        VList
          [ VList [VStr "cgpa"; VStr ">="; VFloat 3.7%float];
            VList [VStr "co_curricular_score"; VStr ">="; VInt 80];
            VList [VStr "family_income"; VStr "<="; VInt 8000];
            VList [VStr "disciplinary_actions"; VStr "=="; VInt 0] ]);
      ("action",
        VDict
          [ ("decision", VStr "AWARD_FULL");
            ("reason",
              VStr "Excellent academic & co-curricular performance with acceptable need") ]) ].

Definition good_candidate : value :=
  VDict
    [ ("name", VStr "Good candidate - partial scholarship");
      ("priority", VInt 80);
      ("conditions",
        VList
          [ VList [VStr "cgpa"; VStr ">="; VFloat 3.3%float];
            VList [VStr "co_curricular_score"; VStr ">="; VInt 60];
            VList [VStr "family_income"; VStr "<="; VInt 12000];
            VList [VStr "disciplinary_actions"; VStr "<="; VInt 1] ]);
      ("action",
        VDict
          [ ("decision", VStr "AWARD_PARTIAL");
            ("reason",
              VStr "Good academic & involvement record with moderate need") ]) ].

Definition need_based_review : value :=
  VDict
    [ ("name", VStr "Need-based review");
      ("priority", VInt 70);
      ("conditions",
        VList
          [ VList [VStr "cgpa"; VStr ">="; VFloat 2.5%float];
            VList [VStr "family_income"; VStr "<="; VInt 4000] ]);
      ("action",
        VDict
          [ ("decision", VStr "REVIEW");
            ("reason", VStr "High need but borderline academic score") ]) ].

Definition low_cgpa : value :=
  VDict
    [ ("name", VStr "Low CGPA – not eligible");
      ("priority", VInt 95);
      ("conditions",
        VList [ VList [VStr "cgpa"; VStr "<"; VFloat 2.5%float] ]);
      ("action",
        VDict
          [ ("decision", VStr "REJECT");
            ("reason", VStr "CGPA below minimum scholarship requirement") ]) ].

Definition serious_disciplinary : value :=
  VDict
    [ ("name", VStr "Serious disciplinary record");
      ("priority", VInt 90);
      ("conditions",
        VList [ VList [VStr "disciplinary_actions"; VStr ">="; VInt 2] ]);
      ("action",
        VDict
          [ ("decision", VStr "REJECT");
            ("reason", VStr "Too many disciplinary records") ]) ].

Definition default_rule_list : list value :=
  [top_merit; good_candidate; need_based_review; low_cgpa;
   serious_disciplinary].

Definition DEFAULT_RULES : value := VList default_rule_list.

(** [field in facts and op in OPS and OPS[op](facts[field], value)]:
    [and] evaluates its right operand only when the left one is true. *)
Definition evaluate_condition (facts : gmap string value) (cond : value)
  : result bool :=
  '(field, op, value) ← unpack3 cond;
  in_facts ← contains_key facts field;
  if (in_facts : bool) then
    in_ops ← contains_key OPS op;
    if (in_ops : bool) then
      f ← getitem OPS op;
      x ← getitem facts field;
      f x value
    else Ok false
  else Ok false.

Definition rule_matches (facts : gmap string value) (rule : value)
  : result bool :=
  conditions ← subscript rule "conditions";
  cs ← py_iter conditions;
  py_all (evaluate_condition facts) cs.

(** The action returned when no rule matches. *)
Definition fallback : value :=
  VDict [("decision", VStr "REVIEW"); ("reason", VStr "No rule matched")].

Definition run_rules (facts : gmap string value) (rules : value)
  : result (value * list value) :=
  rs ← py_iter rules;
  matched ← py_filter (rule_matches facts) rs;
  match matched with
  | [] => Ok (fallback, [])
  | _ :: _ =>
      matched_sorted ← sorted_reverse (λ r, subscript r "priority") matched;
      match matched_sorted with
      | first :: _ => action ← subscript first "action"; Ok (action, matched_sorted)
      | [] => Raise IndexError
      end
  end.

(** ** Loading the edited rule document *)

(** What [json.loads(rules_json)] does: it returns the parsed value or
    raises. *)
Inductive json_outcome : Type :=
| Parsed (v : value)
| JSONDecodeError.

(** [try: rules = json.loads(rules_json)] / [except: rules = DEFAULT_RULES] *)
Definition load_rules (o : json_outcome) : value :=
  match o with
  | Parsed v => v
  | JSONDecodeError => DEFAULT_RULES
  end.

(** [run_rules(facts, rules)] on the loaded rules. *)
Definition evaluate (facts : gmap string value) (o : json_outcome)
  : result (value * list value) :=
  run_rules facts (load_rules o).

(** ** Shapes and scenarios *)

(** The shape of a rule that the engine's contract assumes: [name] a
    string, [priority] an integer, [conditions] a list of 3-element lists
    [[field, operator, literal]] with a string for the field and for the
    operator, and an [action]. *)
Definition well_shaped_condition (c : value) : bool :=
  match c with
  | VList [VStr _; VStr _; _] => true
  | _ => false
  end.

Definition well_shaped_rule (r : value) : bool :=
  match subscript r "name", subscript r "priority",
        subscript r "conditions", subscript r "action" with
  | Ok (VStr _), Ok (VInt _), Ok (VList cs), Ok _ =>
      forallb well_shaped_condition cs
  | _, _, _, _ => false
  end.

(** The operator of the condition is a key of [OPS]. *)
Definition known_operator (c : value) : bool :=
  match c with
  | VList [_; VStr op; _] => bool_decide (is_Some (OPS !! op))
  | _ => false
  end.

(** The conditions of a rule, when it has a list of them. *)
Definition conditions_of (r : value) : list value :=
  match subscript r "conditions" with
  | Ok (VList cs) => cs
  | _ => []
  end.

(** The operator symbols the specification recognizes. *)
Definition recognized_ops : list string :=
  ["=="; "!="; ">"; ">="; "<"; "<="; "in"; "not_in"].

(** The priority of a rule whose priority is an integer, else 0. *)
Definition priority_of (r : value) : Z :=
  match subscript r "priority" with
  | Ok (VInt p) => p
  | _ => 0
  end.

(** The facts of the specification's scenarios A to D. *)
Definition facts_A : gmap string value :=
  list_to_map
    [ ("cgpa", VFloat 3.8%float); ("co_curricular_score", VInt 85);
      ("family_income", VInt 5000); ("disciplinary_actions", VInt 0) ].

Definition facts_B : gmap string value :=
  list_to_map
    [ ("cgpa", VFloat 2.0%float); ("family_income", VInt 3000);
      ("co_curricular_score", VInt 0); ("disciplinary_actions", VInt 0) ].

Definition facts_C : gmap string value :=
  list_to_map
    [ ("cgpa", VFloat 3.9%float); ("co_curricular_score", VInt 90);
      ("family_income", VInt 5000); ("disciplinary_actions", VInt 3) ].

Definition facts_D : gmap string value :=
  list_to_map
    [ ("cgpa", VFloat 3.0%float); ("family_income", VInt 20000);
      ("co_curricular_score", VInt 10); ("disciplinary_actions", VInt 0) ].

(** Facts under which "Need-based review" (70) and "Serious disciplinary
    record" (90) match. *)
Definition facts_E : gmap string value :=
  list_to_map
    [ ("cgpa", VFloat 3.5%float); ("family_income", VInt 3000);
      ("co_curricular_score", VInt 70); ("disciplinary_actions", VInt 2) ].

(** ** Auxiliary notions of the properties *)

(** The part of [run_rules] that follows the list comprehension: what it
    does with the matching rules. *)
Definition rank (matched : list value) : result (value * list value) :=
  match matched with
  | [] => Ok (fallback, [])
  | _ :: _ =>
      matched_sorted ← sorted_reverse (λ r, subscript r "priority") matched;
      match matched_sorted with
      | first :: _ =>
          action ← subscript first "action"; Ok (action, matched_sorted)
      | [] => Raise IndexError
      end
  end.

(** A keyed item whose key is the integer [prio] of the item, and the
    order of the keys of two such items. *)
Definition tagged (prio : value → Z) (kx : value * value) : Prop :=
  kx.1 = VInt (prio kx.2).
Definition le_prio (prio : value → Z) (a b : value * value) : Prop :=
  prio a.2 ≤ prio b.2.

(** Two rules agree off the name when every subscript but ["name"]
    gives the same on both. *)
Definition agree_off_name (r r' : value) : Prop :=
  ∀ k, k ≠ "name" → subscript r k = subscript r' k.

(** Two computations do the same up to [R]: both raise the same
    exception, or both return and the results are related. *)
Definition result_rel {A : Type} (R : A → A → Prop) (m m' : result A) : Prop :=
  match m, m' with
  | Ok a, Ok a' => R a a'
  | Raise e, Raise e' => e = e'
  | _, _ => False
  end.

(** Keyed items with the same key and items related by [R]. *)
Definition keyed_rel (R : value → value → Prop) (p q : value * value) : Prop :=
  p.1 = q.1 ∧ R p.2 q.2.

(** The rule [r] under another name: [{**r, "name": n}] for a rule that
    has a name. *)
Fixpoint rename_items (n : value) (d : list (string * value))
  : list (string * value) :=
  match d with
  | [] => []
  | (k, v) :: d' =>
      if String.eqb k "name" then (k, n) :: d'
      else (k, v) :: rename_items n d'
  end.

Definition rename (n : value) (r : value) : value :=
  match r with
  | VDict d => VDict (rename_items n d)
  | _ => r
  end.

(** The condition can be evaluated: its field is missing from the facts,
    or its operator is not recognized, or it is [==] or [!=], or the
    operator returns on the value of the fact and the literal. *)
Definition condition_tolerated (facts : gmap string value) (c : value)
  : Prop :=
  ∃ field op lit,
    c = VList [VStr field; VStr op; lit]
    ∧ (facts !! field = None
       ∨ op ∉ recognized_ops
       ∨ op = "==" ∨ op = "!="
       ∨ ∃ x fn b,
           facts !! field = Some x ∧ OPS !! op = Some fn ∧ fn x lit = Ok b).

(** Induction on values, with the items of a list and of a dictionary. *)
Section value_induction.
Variable P : value → Prop.
Hypothesis HNone : P VNone.
Hypothesis HBool : ∀ b, P (VBool b).
Hypothesis HInt : ∀ z, P (VInt z).
Hypothesis HFloat : ∀ f, P (VFloat f).
Hypothesis HStr : ∀ s, P (VStr s).
Hypothesis HList : ∀ l, Forall P l → P (VList l).
Hypothesis HDict : ∀ d, Forall (λ kv, P kv.2) d → P (VDict d).

Fixpoint value_nested_ind (v : value) : P v :=
  match v with
  | VNone => HNone
  | VBool b => HBool b
  | VInt z => HInt z
  | VFloat f => HFloat f
  | VStr s => HStr s
  | VList l =>
      HList l
        ((fix items (l : list value) : Forall P l :=
            match l with
            | [] => List.Forall_nil P
            | x :: l' => List.Forall_cons P x l' (value_nested_ind x) (items l')
            end) l)
  | VDict d =>
      HDict d
        ((fix items (d : list (string * value)) : Forall (λ kv, P kv.2) d :=
            match d with
            | [] => List.Forall_nil _
            | kv :: d' =>
                List.Forall_cons _ kv d' (value_nested_ind kv.2) (items d')
            end) d)
  end.
End value_induction.

(** ** Example rules, documents and facts *)

(** Three catch-all rules, two of them of equal priority. *)
Definition catch_all (name : string) (priority : Z) : value :=
  VDict
    [ ("name", VStr name); ("priority", VInt priority);
      ("conditions", VList []);
      ("action", VDict [("decision", VStr name)]) ].

Definition tie_rules : list value :=
  [catch_all "first" 5; catch_all "second" 9; catch_all "third" 5].

Definition reject_low_cgpa : value :=
  VDict
    [ ("decision", VStr "REJECT");
      ("reason", VStr "CGPA below minimum scholarship requirement") ].

(** A well-shaped rule whose literal is a string, against the number
    [cgpa]. *)
Definition text_threshold : value :=
  VDict
    [ ("name", VStr "High CGPA");
      ("priority", VInt 50);
      ("conditions", VList [ VList [VStr "cgpa"; VStr ">="; VStr "high"] ]);
      ("action", VDict [("decision", VStr "AWARD_FULL")]) ].

(** Well-shaped rules with a missing fact, an unrecognized operator, and
    an equality between a number and a string. *)
Definition lenient_rule (field op : string) (lit : value) : value :=
  VDict
    [ ("name", VStr "lenient");
      ("priority", VInt 10);
      ("conditions", VList [ VList [VStr field; VStr op; lit] ]);
      ("action", VDict [("decision", VStr "REVIEW")]) ].

Definition lenient_rules : list value :=
  [ lenient_rule "semester" ">=" (VStr "x");
    lenient_rule "cgpa" "=>" (VInt 3);
    lenient_rule "cgpa" "!=" (VStr "high");
    low_cgpa ].

(** The document [[{"name": "x"}]]: a rule without priority,
    conditions and action. *)
Definition nameless_document : value := VList [VDict [("name", VStr "x")]].

(** A document whose only condition has two items, [["cgpa", ">="]]. *)
Definition short_condition_document : value :=
  VList
    [ VDict
        [ ("name", VStr "Short");
          ("priority", VInt 1);
          ("conditions", VList [ VList [VStr "cgpa"; VStr ">="] ]);
          ("action", VDict [("decision", VStr "REVIEW")]) ] ].

(** Facts whose [cgpa] is a string. *)
Definition facts_text : gmap string value :=
  list_to_map [("cgpa", VStr "high")].

(** Every condition of the rule holds under the facts. *)
Definition all_conditions_hold (facts : gmap string value) (r : value)
  : Prop :=
  Forall (λ c, evaluate_condition facts c = Ok true) (conditions_of r).

#[global] Instance all_conditions_hold_dec (facts : gmap string value)
    (r : value) : Decision (all_conditions_hold facts r).
Proof. unfold all_conditions_hold. apply _. Defined.

(** The ordered comparisons and the membership tests among the
    operator symbols. *)
Definition ordered_ops : list string := [">"; ">="; "<"; "<="].
Definition membership_ops : list string := ["in"; "not_in"].

(** Operands that the operator cannot be applied to: a number against a
    string under an ordered comparison, and a right operand of [in] or
    [not_in] that is [None] or a number. *)
Definition incompatible_operands (op : string) (x lit : value) : Prop :=
  (op ∈ ordered_ops
   ∧ ((is_Some (as_num x) ∧ ∃ s, lit = VStr s)
      ∨ ((∃ s, x = VStr s) ∧ is_Some (as_num lit))))
  ∨ (op ∈ membership_ops ∧ (lit = VNone ∨ is_Some (as_num lit))).

(** A value that cannot be iterated over: [None], a boolean or a
    number. *)
Definition not_iterable (v : value) : Prop :=
  v = VNone ∨ is_Some (as_num v).

(** The default rules between catch-all rules, two of them of equal
    priority. *)
Definition ranking_rules : list value :=
  catch_all "first" 5 :: default_rule_list
  ++ [catch_all "second" 9; catch_all "third" 5].

(** A rule with a condition of two items after a condition that holds
    under the facts of scenario A, and one with a condition that is a
    number. *)
Definition late_short_condition : value :=
  VDict
    [ ("name", VStr "Late");
      ("priority", VInt 1);
      ("conditions",
        VList [ VList [VStr "cgpa"; VStr ">="; VFloat 3.7%float];
                VList [VStr "cgpa"; VStr ">="] ]);
      ("action", VDict [("decision", VStr "REVIEW")]) ].

Definition number_condition : value :=
  VDict
    [ ("name", VStr "Number");
      ("priority", VInt 1);
      ("conditions", VList [ VInt 5 ]);
      ("action", VDict [("decision", VStr "REVIEW")]) ].

(** ** The page around the engine *)

(** [float(n)] for an integer [n]: the nearest float, ties to even.  (For
    an integer too large for a float Python raises [OverflowError]; the
    integers that [st.number_input] returns are below [2^53] in absolute
    value, where the conversion is exact.) *)
Definition float_of_Z (n : Z) : float :=
  SF2Prim (binary_normalize prec emax n 0 false).

(** The facts the page builds from its six inputs: [cgpa] is the float
    that [st.number_input] returns for float bounds, the other five are
    the integers it returns for integer bounds. *)
Definition facts_of_inputs (cgpa : float)
    (income co_curricular service_hours semester disciplinary : Z)
  : gmap string value :=
  list_to_map
    [ ("cgpa", VFloat cgpa);
      ("family_income", VFloat (float_of_Z income));
      ("co_curricular_score", VInt co_curricular);
      ("community_service_hours", VInt service_hours);
      ("semester", VInt semester);
      ("disciplinary_actions", VInt disciplinary) ].

(** The colours of the decision card. *)
Definition decision_color : gmap string string :=
  list_to_map
    [ ("AWARD_FULL", "#27ae60");
      ("AWARD_PARTIAL", "#2980b9");
      ("REJECT", "#c0392b");
      ("REVIEW", "#f39c12") ].

Definition decision_labels : list string :=
  ["AWARD_FULL"; "AWARD_PARTIAL"; "REJECT"; "REVIEW"].

(** The three values the decision card interpolates, in the order in
    which its f-string evaluates them: the colour
    [decision_color[action['decision']]], then [action['decision']],
    then [action['reason']]. *)
Definition decision_card (action : value) : result (string * value * value) :=
  key ← subscript action "decision";
  color ← getitem decision_color key;
  decision ← subscript action "decision";
  reason ← subscript action "reason";
  Ok (color, decision, reason).

(** [c[i]] for a position [i] that is not negative: an item of a list, a
    character of a string; a dictionary has no integer key, and nothing
    else can be subscripted. *)
Definition index (c : value) (i : nat) : result value :=
  match c with
  | VList l =>
      match l !! i with
      | Some x => Ok x
      | None => Raise IndexError
      end
  | VStr s =>
      match utf8_chars s !! i with
      | Some ch => Ok (VStr ch)
      | None => Raise IndexError
      end
  | VDict _ => Raise KeyError
  | _ => Raise TypeError
  end.

(** [[f(x) for x in l]]. *)
Fixpoint result_map {A B : Type} (f : A → result B) (l : list A)
  : result (list B) :=
  match l with
  | [] => Ok []
  | x :: l' => y ← f x; rest ← result_map f l'; Ok (y :: rest)
  end.

(** [[c[i] for c in r["conditions"]]], a column of the table of
    conditions. *)
Definition column (r : value) (i : nat) : result (list value) :=
  conditions ← subscript r "conditions";
  cs ← py_iter conditions;
  result_map (λ c, index c i) cs.

(** What the page shows of a matched rule: its name and priority in the
    label of the expander, its action (the page prints it with
    [json.dumps]), and the three columns of its conditions. *)
Definition matched_rule_view (r : value)
  : result (value * value * value * (list value * list value * list value)) :=
  name ← subscript r "name";
  priority ← subscript r "priority";
  action ← subscript r "action";
  fields ← column r 0;
  operators ← column r 1;
  values ← column r 2;
  Ok (name, priority, action, (fields, operators, values)).

(** [for r in matched_rules: ...] *)
Definition matched_rules_view (matched_rules : list value)
  : result (list (value * value * value
                  * (list value * list value * list value))) :=
  result_map matched_rule_view matched_rules.

(** The field is named by a condition of a rule of [rs]. *)
Definition mentions (rs : list value) (field : string) : Prop :=
  ∃ r conditions cs c op lit,
    r ∈ rs
    ∧ subscript r "conditions" = Ok conditions
    ∧ py_iter conditions = Ok cs
    ∧ c ∈ cs
    ∧ unpack3 c = Ok (VStr field, op, lit).

(** A value that can be iterated over and has no items. *)
Definition empty_container (v : value) : Prop :=
  v = VList [] ∨ v = VStr "" ∨ v = VDict [].

(** A rule whose second condition is malformed, after one that is false
    under the facts of scenario D and true under those of scenario B. *)
Definition guarded_malformed : value :=
  VDict
    [ ("name", VStr "guarded");
      ("priority", VInt 1);
      ("conditions",
        VList [ VList [VStr "cgpa"; VStr "<"; VFloat 2.5%float];
                VList [VStr "cgpa"] ]);
      ("action", VDict [("decision", VStr "REVIEW")]) ].

(** The facts of scenario A with a [semester] added. *)
Definition facts_A_semester : gmap string value :=
  <["semester" := VInt 4]> facts_A.

(** The fields that the conditions of the default rules name. *)
Definition default_fields : list string :=
  ["cgpa"; "co_curricular_score"; "family_income"; "disciplinary_actions"].

(** The conditions that three columns of a table of conditions stand
    for. *)
Definition conditions_of_columns (fields operators values : list value)
  : list value :=
  (λ t, VList [t.1.1; t.1.2; t.2]) <$> zip (zip fields operators) values.

(** A rule whose decision is not one of the four of the decision card. *)
Definition waitlist_action : value :=
  VDict [("decision", VStr "WAITLIST"); ("reason", VStr "Quota reached")].

(** * Properties *)

(** ** The result monad *)

Lemma bind_Ok {A B : Type} (f : A → result B) (a : A) :
  (Ok a ≫= f) = f a.
Proof. reflexivity. Qed.

Lemma bind_Ok_inv {A B : Type} (f : A → result B) (m : result A) (b : B) :
  (m ≫= f) = Ok b → ∃ a, m = Ok a ∧ f a = Ok b.
Proof. destruct m as [a|e]; [eauto | discriminate]. Qed.

(** Decompose a bind that is known to return. *)
Ltac inv_bind H :=
  let a := fresh "a" in
  let Ha := fresh "Ha" in
  apply bind_Ok_inv in H as (a & Ha & H); simpl in H.

(** ** The operator table *)

Lemma OPS_keys : OPS_items.*1 = recognized_ops.
Proof. reflexivity. Qed.

Lemma OPS_lookup_None (s : string) : s ∉ recognized_ops → OPS !! s = None.
Proof.
  intros Hs. unfold OPS. apply not_elem_of_list_to_map_1.
  now rewrite OPS_keys.
Qed.

(** ** Conditions *)

Lemma evaluate_condition_triple (facts : gmap string value)
    (f op : string) (lit : value) :
  evaluate_condition facts (VList [VStr f; VStr op; lit]) =
  match facts !! f, OPS !! op with
  | Some x, Some fn => fn x lit
  | _, _ => Ok false
  end.
Proof.
  unfold evaluate_condition, unpack3, contains_key, getitem. simpl.
  destruct (facts !! f) as [x|]; destruct (OPS !! op) as [fn|]; simpl;
    repeat case_bool_decide; simpl; try reflexivity;
    match goal with
    | H : ¬ is_Some (Some _) |- _ => destruct H; eauto
    | H : is_Some None |- _ => destruct H; discriminate
    end.
Qed.

(** C3: a condition whose field is absent from the facts evaluates to
    false, whatever its operator and literal are (the operator need not
    even be a string): evaluation returns, it does not raise. *)
Theorem evaluate_condition_missing_field (facts : gmap string value)
    (field : string) (op lit : value) :
  facts !! field = None →
  evaluate_condition facts (VList [VStr field; op; lit]) = Ok false.
Proof.
  intros Hmiss. unfold evaluate_condition, unpack3, contains_key. simpl.
  rewrite Hmiss. simpl.
  repeat case_bool_decide;
    first [ reflexivity
          | match goal with H : is_Some None |- _ => now destruct H end ].
Qed.

Lemma evaluate_condition_missing_field_witness :
  facts_B !! "semester" = None ∧
  evaluate_condition facts_B
    (VList [VStr "semester"; VList []; VInt 4]) = Ok false.
Proof.
  split; [reflexivity|].
  apply (evaluate_condition_missing_field facts_B "semester").
  reflexivity.
Defined.

(** C5: a condition whose operator symbol is none of [==], [!=], [>],
    [>=], [<], [<=], [in], [not_in] evaluates to false: it does not
    raise, whether the field is present or not. *)
Theorem evaluate_condition_unknown_operator (facts : gmap string value)
    (field op : string) (lit : value) :
  op ∉ recognized_ops →
  evaluate_condition facts (VList [VStr field; VStr op; lit]) = Ok false.
Proof.
  intros Hop. rewrite evaluate_condition_triple.
  rewrite (OPS_lookup_None op Hop).
  now destruct (facts !! field).
Qed.

Lemma evaluate_condition_unknown_operator_witness :
  ("=>" ∉ recognized_ops) ∧
  evaluate_condition facts_B
    (VList [VStr "cgpa"; VStr "=>"; VStr "high"]) = Ok false.
Proof.
  assert (Hop : "=>" ∉ recognized_ops).
  { apply (bool_decide_unpack _). vm_compute. exact I. }
  split; [exact Hop|].
  apply (evaluate_condition_unknown_operator facts_B "cgpa" "=>"), Hop.
Defined.

(** ** Sorting *)

(** Whatever the keys are, a sort that returns has permuted its input. *)
Lemma decorate_items (key : value → result value) (l : list value)
    (kl : list (value * value)) :
  decorate key l = Ok kl → kl.*2 = l.
Proof.
  revert kl. induction l as [|x l IH]; intros kl H; simpl in H.
  - now inversion H.
  - inv_bind H. inv_bind H. inversion H; subst. simpl.
    f_equal. now apply IH.
Qed.

Lemma insert_by_key_perm (x : value * value) (l l' : list (value * value)) :
  insert_by_key x l = Ok l' → l' ≡ₚ x :: l.
Proof.
  revert l'. induction l as [|y l IH]; intros l' H; simpl in H.
  - now inversion H.
  - inv_bind H. destruct a.
    + now inversion H.
    + inv_bind H. inversion H; subst.
      rewrite (IH _ Ha0). apply Permutation_swap.
Qed.

Lemma sort_by_key_perm (acc l s : list (value * value)) :
  sort_by_key acc l = Ok s → s ≡ₚ acc ++ l.
Proof.
  revert acc s. induction l as [|x l IH]; intros acc s H; simpl in H.
  - inversion H. now rewrite app_nil_r.
  - inv_bind H. rewrite (IH _ _ H), (insert_by_key_perm _ _ _ Ha).
    simpl. apply Permutation_middle.
Qed.

Lemma sorted_reverse_perm (key : value → result value) (l s : list value) :
  sorted_reverse key l = Ok s → s ≡ₚ l.
Proof.
  unfold sorted_reverse. intros H. inv_bind H. inv_bind H.
  inversion H; subst.
  apply sort_by_key_perm in Ha0. simpl in Ha0.
  rewrite reverse_Permutation, Ha0, reverse_Permutation.
  now rewrite (decorate_items _ _ _ Ha).
Qed.

(** On integers [<] is the order of [Z]. *)
Lemma py_order_lt_int (a b : Z) :
  py_order OLt (VInt a) (VInt b) = Ok (bool_decide (a < b)).
Proof.
  simpl. unfold num_ord. simpl. f_equal.
  destruct (Z.compare_spec a b); simpl;
    [rewrite bool_decide_false | rewrite bool_decide_true
    | rewrite bool_decide_false]; auto; lia.
Qed.

Lemma filter_none {A : Type} (P : A → Prop) `{!∀ x, Decision (P x)}
    (l : list A) :
  Forall (λ x, ¬ P x) l → filter P l = [].
Proof.
  induction 1 as [|x l Hx _ IH]; [reflexivity|].
  now rewrite filter_cons_False.
Qed.

Lemma StronglySorted_reverse {A : Type} (R : relation A) (l : list A) :
  StronglySorted R l → StronglySorted (flip R) (reverse l).
Proof.
  induction 1 as [|x l _ IH Hx].
  - constructor.
  - rewrite reverse_cons. apply StronglySorted_app_2.
    + intros x1 x2 H1 H2. apply list_elem_of_singleton in H2 as ->.
      rewrite elem_of_reverse in H1. rewrite Forall_forall in Hx.
      unfold flip. auto.
    + assumption.
    + repeat constructor.
Qed.

Lemma filter_snd (P : value → Prop) `{!∀ x, Decision (P x)}
    (l : list (value * value)) :
  filter P l.*2 = (filter (λ kx, P kx.2) l).*2.
Proof.
  induction l as [|kx l IH]; [reflexivity|].
  rewrite fmap_cons, (filter_cons P), (filter_cons (λ kx, P kx.2)), IH.
  now destruct (decide (P kx.2)).
Qed.

Section int_keys.
(** The sort when every key is the integer [prio x] of its item [x]. *)
Variable prio : value → Z.

Lemma insert_by_key_cons (x y : value * value) (l : list (value * value)) :
  tagged prio x → tagged prio y →
  insert_by_key x (y :: l) =
  if bool_decide (prio x.2 < prio y.2) then Ok (x :: y :: l)
  else rest ← insert_by_key x l; Ok (y :: rest).
Proof.
  intros Hx Hy. cbn [insert_by_key]. rewrite Hx, Hy, py_order_lt_int.
  reflexivity.
Qed.

Lemma insert_by_key_tagged (x : value * value) (l : list (value * value)) :
  tagged prio x → Forall (tagged prio) l → StronglySorted (le_prio prio) l →
  ∃ l', insert_by_key x l = Ok l'
    ∧ l' ≡ₚ x :: l
    ∧ StronglySorted (le_prio prio) l'
    ∧ ∀ p, filter (λ kx, prio kx.2 = p) l'
           = filter (λ kx, prio kx.2 = p) (l ++ [x]).
Proof.
  intros Hx Hl Hs. induction Hs as [|y l Hs IH Hy].
  - exists [x]. split; [reflexivity|]. split; [reflexivity|].
    split; [repeat constructor | reflexivity].
  - apply Forall_cons in Hl as [Hty Hl].
    rewrite (insert_by_key_cons x y l Hx Hty).
    case_bool_decide as Hlt.
    + exists (x :: y :: l). split; [reflexivity|]. split; [reflexivity|].
      assert (Hall : Forall (le_prio prio x) (y :: l)).
      { constructor; [unfold le_prio; lia|].
        eapply Forall_impl; [exact Hy|]. unfold le_prio. intros; lia. }
      split; [constructor; [constructor|]; assumption|].
      intros p. rewrite filter_app, (filter_cons _ x (y :: l)).
      rewrite (filter_cons _ x []), filter_nil.
      destruct (decide (prio x.2 = p)) as [Hp|Hp]; [|now rewrite app_nil_r].
      assert (Hnone : filter (λ kx, prio kx.2 = p) (y :: l) = []).
      { apply (filter_none (λ kx, prio kx.2 = p)), Forall_forall.
        intros z Hz. rewrite Forall_forall in Hall.
        specialize (Hall z Hz). unfold le_prio in Hall.
        apply elem_of_cons in Hz as [->|Hz]; [lia|].
        rewrite Forall_forall in Hy. specialize (Hy z Hz).
        unfold le_prio in Hy. lia. }
      now rewrite Hnone.
    + destruct (IH Hl) as (l' & Hins & Hperm & Hsorted & Hstable).
      rewrite Hins. exists (y :: l').
      split; [reflexivity|].
      split; [rewrite Hperm; apply Permutation_swap|].
      split.
      * constructor; [assumption|]. rewrite Hperm.
        constructor; [unfold le_prio; lia | assumption].
      * intros p. rewrite <- app_comm_cons, !(filter_cons _ y), Hstable.
        now destruct (decide (prio y.2 = p)).
Qed.

Lemma sort_by_key_tagged (acc l : list (value * value)) :
  Forall (tagged prio) acc → Forall (tagged prio) l → StronglySorted (le_prio prio) acc →
  ∃ s, sort_by_key acc l = Ok s
    ∧ StronglySorted (le_prio prio) s
    ∧ ∀ p, filter (λ kx, prio kx.2 = p) s
           = filter (λ kx, prio kx.2 = p) (acc ++ l).
Proof.
  revert acc. induction l as [|x l IH]; intros acc Hacc Hl Hs.
  - exists acc. rewrite app_nil_r. auto.
  - apply Forall_cons in Hl as [Hx Hl]. simpl.
    destruct (insert_by_key_tagged x acc Hx Hacc Hs)
      as (acc' & Hins & Hperm & Hsorted & Hstable).
    rewrite Hins. simpl.
    destruct (IH acc') as (s & Hsort & Hss & Hst); auto.
    { rewrite Hperm. now constructor. }
    exists s. split; [assumption|]. split; [assumption|].
    intros p. rewrite (Hst p). change (x :: l) with ([x] ++ l).
    rewrite app_assoc, (filter_app _ acc' l), (filter_app _ (acc ++ [x]) l).
    now rewrite (Hstable p).
Qed.

Lemma decorate_tagged (key : value → result value) (l : list value) :
  Forall (λ x, key x = Ok (VInt (prio x))) l →
  decorate key l = Ok ((λ x, (VInt (prio x), x)) <$> l).
Proof.
  induction 1 as [|x l Hx _ IH]; [reflexivity|].
  simpl. now rewrite Hx, IH.
Qed.

(** With integer keys, [sorted(..., reverse=True)] returns, and what it
    returns is a permutation of its input, in descending order of key,
    that keeps the items of equal key in their order. *)
Lemma sorted_reverse_tagged (key : value → result value) (l : list value) :
  Forall (λ x, key x = Ok (VInt (prio x))) l →
  ∃ s, sorted_reverse key l = Ok s
    ∧ s ≡ₚ l
    ∧ StronglySorted (λ a b, prio b ≤ prio a) s
    ∧ ∀ p, filter (λ r, prio r = p) s = filter (λ r, prio r = p) l.
Proof.
  intros Hkey. unfold sorted_reverse.
  rewrite (decorate_tagged key l Hkey). simpl.
  set (kl := (λ x, (VInt (prio x), x)) <$> l).
  assert (Hkl : Forall (tagged prio) kl).
  { apply Forall_fmap, Forall_forall. intros x _. reflexivity. }
  assert (Hkl2 : kl.*2 = l).
  { unfold kl. rewrite <- list_fmap_compose. apply list_fmap_id. }
  destruct (sort_by_key_tagged [] (reverse kl)) as (s & Hsort & Hss & Hst).
  { constructor. }
  { now rewrite reverse_Permutation. }
  { constructor. }
  rewrite Hsort. simpl. exists (reverse s).*2.
  split; [reflexivity|].
  split.
  { apply sort_by_key_perm in Hsort. simpl in Hsort.
    now rewrite reverse_Permutation, Hsort, reverse_Permutation, Hkl2. }
  split.
  { apply (StronglySorted_fmap snd (flip (le_prio prio))).
    - unfold flip, le_prio. intros; lia.
    - now apply StronglySorted_reverse. }
  intros p. rewrite (filter_snd (λ r, prio r = p)).
  rewrite filter_reverse, Hst, app_nil_l.
  rewrite filter_reverse, reverse_involutive.
  rewrite <- Hkl2. symmetry. exact (filter_snd (λ r, prio r = p) kl).
Qed.
End int_keys.

(** ** Matching *)

Lemma py_all_true (f : value → result bool) (l : list value) :
  py_all f l = Ok true ↔ Forall (λ c, f c = Ok true) l.
Proof.
  induction l as [|c l IH]; simpl.
  - split; [constructor | reflexivity].
  - rewrite Forall_cons, <- IH.
    destruct (f c) as [[]|e]; simpl; split;
      try tauto; try discriminate; intros [H _]; discriminate.
Qed.

Lemma py_all_prefix (f : value → result bool) (pre post : list value)
    (c : value) :
  Forall (λ c, f c = Ok true) pre →
  py_all f (pre ++ c :: post) = py_all f (c :: post).
Proof.
  induction 1 as [|c' pre Hc _ IH]; [reflexivity|].
  simpl. rewrite Hc. exact IH.
Qed.

Lemma py_filter_first_raises (f : value → result bool) (r : value)
    (l : list value) (e : exn) :
  f r = Raise e → py_filter f (r :: l) = Raise e.
Proof. intros H. cbn [py_filter]. now rewrite H. Qed.

Lemma py_filter_prefix_raises (f : value → result bool)
    (pre post : list value) (r : value) (e : exn) :
  Forall (λ r, ∃ b, f r = Ok b) pre →
  f r = Raise e →
  py_filter f (pre ++ r :: post) = Raise e.
Proof.
  intros Hpre Hr. induction Hpre as [|x pre [b Hx] _ IH].
  - now apply py_filter_first_raises.
  - rewrite <- app_comm_cons. cbn [py_filter]. now rewrite Hx, bind_Ok, IH.
Qed.

Lemma py_iter_raises (v : value) (e : exn) :
  py_iter v = Raise e → e = TypeError.
Proof. destruct v; simpl; congruence. Qed.

(** The list comprehension returns when the filter returns on every
    item, and then keeps the items on which it is true, in order. *)
Lemma py_filter_Ok (f : value → result bool) (l : list value) :
  Forall (λ r, ∃ b, f r = Ok b) l →
  py_filter f l = Ok (filter (λ r, f r = Ok true) l).
Proof.
  induction 1 as [|r l [b Hr] _ IH]; [reflexivity|].
  cbn [py_filter]. rewrite Hr, IH. simpl. rewrite filter_cons.
  destruct b; [rewrite decide_True | rewrite decide_False]; congruence.
Qed.

Lemma py_filter_Ok_inv (f : value → result bool) (l m : list value) :
  py_filter f l = Ok m →
  Forall (λ r, ∃ b, f r = Ok b) l ∧ m = filter (λ r, f r = Ok true) l.
Proof.
  intros H. assert (Hall : Forall (λ r, ∃ b, f r = Ok b) l).
  { revert m H. induction l as [|r l IH]; intros m H; [constructor|].
    cbn [py_filter] in H. inv_bind H. inv_bind H. constructor; eauto. }
  split; [assumption|]. rewrite (py_filter_Ok f l Hall) in H. congruence.
Qed.

Lemma run_rules_rank (facts : gmap string value) (rs : list value) :
  run_rules facts (VList rs) = py_filter (rule_matches facts) rs ≫= rank.
Proof. reflexivity. Qed.

Lemma rank_Ok_inv (matched ranked : list value) (action : value) :
  rank matched = Ok (action, ranked) →
  ranked ≡ₚ matched
  ∧ match ranked with
    | [] => action = fallback
    | first :: _ => subscript first "action" = Ok action
    end.
Proof.
  destruct matched as [|r matched]; simpl.
  - intros H. inversion H; subst. auto.
  - intros H. inv_bind H. destruct a as [|first rest]; [discriminate|].
    inv_bind H. inversion H; subst.
    split; [|assumption]. now apply sorted_reverse_perm in Ha.
Qed.

Lemma well_shaped_rule_inv (r : value) :
  well_shaped_rule r = true →
  subscript r "priority" = Ok (VInt (priority_of r))
  ∧ (∃ cs, subscript r "conditions" = Ok (VList cs)
           ∧ forallb well_shaped_condition cs = true)
  ∧ ∃ a, subscript r "action" = Ok a.
Proof.
  unfold well_shaped_rule, priority_of. intros H.
  destruct (subscript r "name") as [[]|]; try discriminate.
  destruct (subscript r "priority") as [[]|]; try discriminate.
  destruct (subscript r "conditions") as [[]|]; try discriminate.
  destruct (subscript r "action"); try discriminate.
  eauto 10.
Qed.

(** Ranking well-shaped rules returns the stable descending sort. *)
Lemma rank_well_shaped (matched : list value) :
  Forall (λ r, well_shaped_rule r = true) matched →
  ∃ action ranked,
    rank matched = Ok (action, ranked)
    ∧ ranked ≡ₚ matched
    ∧ StronglySorted (λ a b, priority_of b ≤ priority_of a) ranked
    ∧ ∀ p, filter (λ r, priority_of r = p) ranked
           = filter (λ r, priority_of r = p) matched.
Proof.
  intros Hws. destruct matched as [|r matched].
  { exists fallback, []. repeat split; constructor. }
  destruct (sorted_reverse_tagged priority_of
              (λ r, subscript r "priority") (r :: matched))
    as (s & Hs & Hperm & Hsorted & Hstable).
  { eapply Forall_impl; [exact Hws|]. intros x Hx.
    now apply well_shaped_rule_inv in Hx as [? _]. }
  cbn [rank]. rewrite Hs, bind_Ok.
  destruct s as [|first rest].
  { apply Permutation_nil in Hperm. discriminate. }
  assert (Hfirst : well_shaped_rule first = true).
  { rewrite Forall_forall in Hws. apply Hws. rewrite <- Hperm. left. }
  apply well_shaped_rule_inv in Hfirst as (_ & _ & a & Ha).
  rewrite Ha, bind_Ok. exists a, (first :: rest). auto.
Qed.

Lemma filter_iff_in {A : Type} (P Q : A → Prop)
    `{!∀ x, Decision (P x)} `{!∀ x, Decision (Q x)} (l : list A) :
  Forall (λ x, P x ↔ Q x) l → filter P l = filter Q l.
Proof.
  induction 1 as [|x l Hx _ IH]; [reflexivity|].
  rewrite !filter_cons, IH.
  destruct (decide (P x)), (decide (Q x)); tauto.
Qed.

(** A rule of the shape the engine assumes matches exactly when every
    one of its conditions evaluates to true. *)
Lemma rule_matches_all_conditions (facts : gmap string value) (r : value) :
  well_shaped_rule r = true →
  rule_matches facts r = Ok true ↔ all_conditions_hold facts r.
Proof.
  intros (_ & (cs & Hcs & _) & _)%well_shaped_rule_inv.
  unfold all_conditions_hold, conditions_of, rule_matches.
  rewrite Hcs, bind_Ok. cbn [py_iter]. rewrite bind_Ok. apply py_all_true.
Qed.

(** C1: for rules of the shape the engine assumes, on facts with which
    matching returns on every rule, [run_rules] returns, and its ranked
    list holds exactly the rules of the input every condition of which
    evaluates to true, each as often as it occurs in the input, in
    descending order of priority, the rules of equal priority in their
    input order. *)
Theorem run_rules_ranked (facts : gmap string value) (rs : list value) :
  Forall (λ r, well_shaped_rule r = true) rs →
  Forall (λ r, ∃ b, rule_matches facts r = Ok b) rs →
  ∃ action ranked,
    run_rules facts (VList rs) = Ok (action, ranked)
    ∧ (∀ r, r ∈ ranked
            ↔ r ∈ rs
              ∧ Forall (λ c, evaluate_condition facts c = Ok true)
                  (conditions_of r))
    ∧ ranked ≡ₚ filter (all_conditions_hold facts) rs
    ∧ StronglySorted (λ a b, priority_of b ≤ priority_of a) ranked
    ∧ ∀ p, filter (λ r, priority_of r = p) ranked
           = filter (λ r, priority_of r = p)
               (filter (all_conditions_hold facts) rs).
Proof.
  intros Hws Hev. rewrite run_rules_rank, (py_filter_Ok _ rs Hev), bind_Ok.
  assert (Hfilter : filter (λ r, rule_matches facts r = Ok true) rs
                    = filter (all_conditions_hold facts) rs).
  { apply filter_iff_in. eapply Forall_impl; [exact Hws|].
    intros r Hr. now apply rule_matches_all_conditions. }
  rewrite Hfilter.
  destruct (rank_well_shaped (filter (all_conditions_hold facts) rs))
    as (action & ranked & Hrank & Hperm & Hsorted & Hstable).
  { apply Forall_forall. intros r [_ Hr]%list_elem_of_filter.
    rewrite Forall_forall in Hws. auto. }
  exists action, ranked. split; [exact Hrank|]. split; [|auto].
  intros r. rewrite Hperm, list_elem_of_filter.
  unfold all_conditions_hold. tauto.
Qed.

Example run_rules_tie :
  run_rules facts_D (VList tie_rules) =
  Ok (VDict [("decision", VStr "second")],
      [catch_all "second" 9; catch_all "first" 5; catch_all "third" 5]).
Proof. vm_compute. reflexivity. Qed.

Lemma run_rules_ranked_witness :
  Forall (λ r, well_shaped_rule r = true) ranking_rules ∧
  Forall (λ r, ∃ b, rule_matches facts_E r = Ok b) ranking_rules ∧
  run_rules facts_E (VList ranking_rules)
  = Ok (VDict
          [ ("decision", VStr "REJECT");
            ("reason", VStr "Too many disciplinary records") ],
        [ serious_disciplinary; need_based_review; catch_all "second" 9;
          catch_all "first" 5; catch_all "third" 5 ]) ∧
  (∀ r, r ∈ [ serious_disciplinary; need_based_review; catch_all "second" 9;
              catch_all "first" 5; catch_all "third" 5 ]
        ↔ r ∈ ranking_rules
          ∧ Forall (λ c, evaluate_condition facts_E c = Ok true)
              (conditions_of r)) ∧
  StronglySorted (λ a b, priority_of b ≤ priority_of a)
    [ serious_disciplinary; need_based_review; catch_all "second" 9;
      catch_all "first" 5; catch_all "third" 5 ] ∧
  filter (λ r, priority_of r = 5)
    [ serious_disciplinary; need_based_review; catch_all "second" 9;
      catch_all "first" 5; catch_all "third" 5 ]
  = filter (λ r, priority_of r = 5)
      (filter (all_conditions_hold facts_E) ranking_rules).
Proof.
  assert (Hws : Forall (λ r, well_shaped_rule r = true) ranking_rules).
  { repeat constructor. }
  assert (Hev : Forall (λ r, ∃ b, rule_matches facts_E r = Ok b)
                  ranking_rules).
  { repeat constructor; eexists; vm_compute; reflexivity. }
  assert (Hrun : run_rules facts_E (VList ranking_rules)
    = Ok (VDict
            [ ("decision", VStr "REJECT");
              ("reason", VStr "Too many disciplinary records") ],
          [ serious_disciplinary; need_based_review; catch_all "second" 9;
            catch_all "first" 5; catch_all "third" 5 ])).
  { vm_compute. reflexivity. }
  destruct (run_rules_ranked facts_E ranking_rules Hws Hev)
    as (action & ranked & Hr & Hmem & _ & Hsorted & Hstable).
  rewrite Hrun in Hr. injection Hr as <- <-.
  split; [exact Hws|]. split; [exact Hev|]. split; [exact Hrun|].
  split; [exact Hmem|]. split; [exact Hsorted|]. exact (Hstable 5).
Defined.

(** C2: when every rule fails to match, [run_rules] returns the action
    [{"decision": "REVIEW", "reason": "No rule matched"}] and the empty
    list; the action returned with an empty ranked list is always that
    action, and the action returned with a ranked list that is not empty
    is always the [action] of its first rule. *)
Theorem run_rules_governing_action (facts : gmap string value) :
  (∀ rs, Forall (λ r, rule_matches facts r = Ok false) rs →
         run_rules facts (VList rs)
         = Ok (VDict [ ("decision", VStr "REVIEW");
                       ("reason", VStr "No rule matched") ], []))
  ∧ (∀ rules action,
       run_rules facts rules = Ok (action, []) →
       action = VDict [ ("decision", VStr "REVIEW");
                        ("reason", VStr "No rule matched") ])
  ∧ (∀ rules action first rest,
       run_rules facts rules = Ok (action, first :: rest) →
       subscript first "action" = Ok action).
Proof.
  split; [|split].
  - intros rs Hrs. rewrite run_rules_rank.
    rewrite (py_filter_Ok (rule_matches facts) rs).
    + rewrite bind_Ok.
      rewrite (filter_none (λ r, rule_matches facts r = Ok true)).
      * reflexivity.
      * eapply Forall_impl; [exact Hrs|]. intros r Hr. simpl in Hr. congruence.
    + eapply Forall_impl; [exact Hrs|]. intros r Hr. simpl in Hr. eauto.
  - intros rules action H. unfold run_rules in H.
    inv_bind H. inv_bind H. fold (rank a0) in H.
    apply rank_Ok_inv in H as [_ H]. exact H.
  - intros rules action first rest H. unfold run_rules in H.
    inv_bind H. inv_bind H. fold (rank a0) in H.
    now apply rank_Ok_inv in H as [_ H].
Qed.

Lemma run_rules_governing_action_witness :
  Forall (λ r, rule_matches facts_D r = Ok false) default_rule_list ∧
  run_rules facts_D (VList default_rule_list)
  = Ok (VDict [ ("decision", VStr "REVIEW");
                ("reason", VStr "No rule matched") ], []) ∧
  run_rules facts_A DEFAULT_RULES
    = Ok (VDict
            [ ("decision", VStr "AWARD_FULL");
              ("reason",
                VStr "Excellent academic & co-curricular performance with acceptable need") ],
          top_merit :: [good_candidate]) ∧
  subscript top_merit "action"
    = Ok (VDict
            [ ("decision", VStr "AWARD_FULL");
              ("reason",
                VStr "Excellent academic & co-curricular performance with acceptable need") ]).
Proof.
  assert (HD : Forall (λ r, rule_matches facts_D r = Ok false)
                 default_rule_list).
  { repeat constructor; vm_compute; reflexivity. }
  assert (HA : run_rules facts_A DEFAULT_RULES
    = Ok (VDict
            [ ("decision", VStr "AWARD_FULL");
              ("reason",
                VStr "Excellent academic & co-curricular performance with acceptable need") ],
          top_merit :: [good_candidate])).
  { vm_compute. reflexivity. }
  destruct (run_rules_governing_action facts_D) as (Hnone & _ & _).
  destruct (run_rules_governing_action facts_A) as (_ & _ & Hfirst).
  split; [exact HD|]. split; [exact (Hnone _ HD)|].
  split; [exact HA|]. exact (Hfirst _ _ _ _ HA).
Defined.

(** C4: a rule whose list of conditions is empty matches under every
    facts mapping, and in every rule collection on which [run_rules]
    returns it is among the ranked rules. *)
Theorem empty_conditions_match (facts : gmap string value) (rule : value) :
  subscript rule "conditions" = Ok (VList []) →
  rule_matches facts rule = Ok true
  ∧ ∀ rs action ranked,
      rule ∈ rs →
      run_rules facts (VList rs) = Ok (action, ranked) →
      rule ∈ ranked.
Proof.
  intros Hc.
  assert (Hm : rule_matches facts rule = Ok true).
  { unfold rule_matches. rewrite Hc. reflexivity. }
  split; [exact Hm|].
  intros rs action ranked Hin H. rewrite run_rules_rank in H.
  inv_bind H. apply py_filter_Ok_inv in Ha as [_ ->].
  apply rank_Ok_inv in H as [Hperm _]. rewrite Hperm.
  apply list_elem_of_filter. auto.
Qed.

Lemma empty_conditions_match_witness :
  subscript (catch_all "second" 9) "conditions" = Ok (VList []) ∧
  rule_matches facts_A (catch_all "second" 9) = Ok true ∧
  catch_all "second" 9 ∈
    [catch_all "second" 9; catch_all "first" 5; catch_all "third" 5].
Proof.
  destruct (empty_conditions_match facts_D (catch_all "second" 9) eq_refl)
    as [_ Hin].
  split; [reflexivity|]. split.
  - exact (proj1 (empty_conditions_match facts_A (catch_all "second" 9)
                    eq_refl)).
  - apply (Hin tie_rules (VDict [("decision", VStr "second")])).
    + right. left.
    + exact run_rules_tie.
Defined.

(** ** Scenarios *)

Example run_rules_scenario_A :
  run_rules facts_A DEFAULT_RULES =
  Ok (VDict
        [ ("decision", VStr "AWARD_FULL");
          ("reason",
            VStr "Excellent academic & co-curricular performance with acceptable need") ],
      [top_merit; good_candidate]).
Proof. vm_compute. reflexivity. Qed.

Example run_rules_scenario_C :
  run_rules facts_C DEFAULT_RULES =
  Ok (VDict
        [ ("decision", VStr "REJECT");
          ("reason", VStr "Too many disciplinary records") ],
      [serious_disciplinary]).
Proof. vm_compute. reflexivity. Qed.

Example run_rules_scenario_D :
  run_rules facts_D DEFAULT_RULES = Ok (fallback, []).
Proof. vm_compute. reflexivity. Qed.

Example run_rules_reorders :
  run_rules facts_E DEFAULT_RULES =
  Ok (VDict
        [ ("decision", VStr "REJECT");
          ("reason", VStr "Too many disciplinary records") ],
      [serious_disciplinary; need_based_review]).
Proof. vm_compute. reflexivity. Qed.


Lemma run_rules_scenario_B :
  run_rules facts_B DEFAULT_RULES = Ok (reject_low_cgpa, [low_cgpa]).
Proof. vm_compute. reflexivity. Qed.

(** C6, as stated, fails: under the facts of scenario B there is no
    outcome of [run_rules] on the default rules in which both the "Low
    CGPA" rule and the "Need-based review" rule are ranked. *)
Lemma scenario_B_need_based_review_not_ranked :
  ¬ ∃ action ranked,
      run_rules facts_B DEFAULT_RULES = Ok (action, ranked)
      ∧ subscript action "decision" = Ok (VStr "REJECT")
      ∧ low_cgpa ∈ ranked
      ∧ need_based_review ∈ ranked.
Proof.
  intros (action & ranked & Hrun & _ & _ & Hin).
  rewrite run_rules_scenario_B in Hrun. injection Hrun as <- <-.
  apply list_elem_of_singleton in Hin. discriminate Hin.
Qed.

(** C6, amended: under the facts of scenario B the "Low CGPA" rule, of
    priority 95, is the only default rule that matches, so it governs and
    the decision is REJECT; "Need-based review" does not match, because
    its condition [cgpa >= 2.5] fails. *)
Theorem scenario_B_low_cgpa_only :
  run_rules facts_B DEFAULT_RULES = Ok (reject_low_cgpa, [low_cgpa])
  ∧ subscript reject_low_cgpa "decision" = Ok (VStr "REJECT")
  ∧ priority_of low_cgpa = 95
  ∧ rule_matches facts_B low_cgpa = Ok true
  ∧ rule_matches facts_B need_based_review = Ok false
  ∧ evaluate_condition facts_B
      (VList [VStr "cgpa"; VStr ">="; VFloat 2.5%float]) = Ok false.
Proof.
  split; [exact run_rules_scenario_B|].
  repeat split; vm_compute; reflexivity.
Qed.

(** ** Independence of the name *)

Lemma result_rel_bind {A B : Type} (R : A → A → Prop) (S : B → B → Prop)
    (m m' : result A) (f f' : A → result B) :
  result_rel R m m' →
  (∀ a a', R a a' → result_rel S (f a) (f' a')) →
  result_rel S (m ≫= f) (m' ≫= f').
Proof.
  destruct m, m'; simpl; intros Hm Hf; auto; contradiction.
Qed.

Lemma result_rel_eq {A : Type} (m : result A) : result_rel eq m m.
Proof. now destruct m. Qed.

Lemma agree_off_name_rename (n r : value) : agree_off_name r (rename n r).
Proof.
  intros k Hk. destruct r as [| | | | | |d]; try reflexivity.
  unfold rename, subscript.
  replace (assoc k (rename_items n d)) with (assoc k d); [reflexivity|].
  induction d as [|[k' v] d IH]; [reflexivity|].
  cbn [assoc rename_items].
  destruct (String.eqb_spec k' "name") as [->|Hk'].
  - cbn [assoc]. destruct (String.eqb_spec k "name"); [contradiction|].
    reflexivity.
  - cbn [assoc]. now rewrite IH.
Qed.

Lemma rule_matches_agree (facts : gmap string value) (r r' : value) :
  agree_off_name r r' → rule_matches facts r = rule_matches facts r'.
Proof.
  intros H. unfold rule_matches. now rewrite (H "conditions").
Qed.

Section related_lists.
Variable R : value → value → Prop.

Lemma py_filter_rel (f : value → result bool) (l l' : list value) :
  (∀ r r', R r r' → f r = f r') →
  Forall2 R l l' →
  result_rel (Forall2 R) (py_filter f l) (py_filter f l').
Proof.
  intros Hf. induction 1 as [|r r' l l' Hr _ IH]; [constructor|].
  cbn [py_filter]. rewrite (Hf r r' Hr).
  apply (result_rel_bind eq); [apply result_rel_eq|]. intros b ? <-.
  apply (result_rel_bind (Forall2 R)); [exact IH|]. intros m m' Hm.
  destruct b; simpl; auto.
Qed.

Lemma decorate_rel (key : value → result value) (l l' : list value) :
  (∀ r r', R r r' → key r = key r') →
  Forall2 R l l' →
  result_rel (Forall2 (keyed_rel R)) (decorate key l) (decorate key l').
Proof.
  intros Hk. induction 1 as [|r r' l l' Hr _ IH]; [constructor|].
  cbn [decorate]. rewrite (Hk r r' Hr).
  apply (result_rel_bind eq); [apply result_rel_eq|]. intros k ? <-.
  apply (result_rel_bind (Forall2 (keyed_rel R))); [exact IH|].
  intros m m' Hm. simpl. constructor; [split|]; auto.
Qed.

Lemma insert_by_key_rel (x x' : value * value)
    (l l' : list (value * value)) :
  keyed_rel R x x' → Forall2 (keyed_rel R) l l' →
  result_rel (Forall2 (keyed_rel R)) (insert_by_key x l) (insert_by_key x' l').
Proof.
  intros Hx. induction 1 as [|y y' l l' Hy Hl IH].
  - simpl. auto.
  - cbn [insert_by_key]. destruct Hx as [Hx1 Hx2], Hy as [Hy1 Hy2].
    rewrite Hx1, Hy1.
    apply (result_rel_bind eq); [apply result_rel_eq|]. intros b ? <-.
    destruct b.
    + simpl. repeat constructor; auto.
    + apply (result_rel_bind (Forall2 (keyed_rel R))); [exact IH|].
      intros m m' Hm. simpl. repeat constructor; auto.
Qed.

Lemma sort_by_key_rel (acc acc' l l' : list (value * value)) :
  Forall2 (keyed_rel R) acc acc' → Forall2 (keyed_rel R) l l' →
  result_rel (Forall2 (keyed_rel R)) (sort_by_key acc l) (sort_by_key acc' l').
Proof.
  intros Hacc Hl. revert acc acc' Hacc.
  induction Hl as [|x x' l l' Hx _ IH]; intros acc acc' Hacc.
  - exact Hacc.
  - cbn [sort_by_key].
    apply (result_rel_bind (Forall2 (keyed_rel R))); auto.
    now apply insert_by_key_rel.
Qed.

Lemma sorted_reverse_rel (key : value → result value) (l l' : list value) :
  (∀ r r', R r r' → key r = key r') →
  Forall2 R l l' →
  result_rel (Forall2 R) (sorted_reverse key l) (sorted_reverse key l').
Proof.
  intros Hk Hl. unfold sorted_reverse.
  apply (result_rel_bind (Forall2 (keyed_rel R))); [now apply decorate_rel|].
  intros kl kl' Hkl.
  apply (result_rel_bind (Forall2 (keyed_rel R))).
  { apply sort_by_key_rel; [constructor|]. now apply Forall2_reverse. }
  intros s s' Hs. simpl.
  apply Forall2_fmap, Forall2_reverse.
  eapply Forall2_impl; [exact Hs|]. now intros p q [_ H].
Qed.
End related_lists.

Lemma rank_rel (l l' : list value) :
  Forall2 agree_off_name l l' →
  result_rel (λ o o', o.1 = o'.1 ∧ Forall2 agree_off_name o.2 o'.2)
    (rank l) (rank l').
Proof.
  intros Hl. destruct Hl as [|r r' l l' Hr Hl]; [simpl; auto|].
  cbn [rank].
  apply (result_rel_bind (Forall2 agree_off_name)).
  { apply sorted_reverse_rel; [|now constructor].
    intros x x' Hx. now apply (Hx "priority"). }
  intros s s' Hs. destruct Hs as [|first first' s s' Hfirst Hs]; [reflexivity|].
  rewrite (Hfirst "action") by discriminate.
  apply (result_rel_bind eq); [apply result_rel_eq|]. intros a ? <-.
  simpl. auto.
Qed.

(** C9: on two rule collections whose rules differ at most in their
    [name], position by position, [run_rules] does the same: it raises
    the same exception on both, or it returns the same governing action
    and two ranked lists whose rules, position by position, have the
    same priority, conditions, action and every other field but the
    name. *)
Theorem run_rules_name_independent (facts : gmap string value)
    (rs rs' : list value) :
  Forall2 agree_off_name rs rs' →
  result_rel (λ o o', o.1 = o'.1 ∧ Forall2 agree_off_name o.2 o'.2)
    (run_rules facts (VList rs)) (run_rules facts (VList rs')).
Proof.
  intros Hrs. rewrite !run_rules_rank.
  apply (result_rel_bind (Forall2 agree_off_name)).
  - apply py_filter_rel; [|exact Hrs].
    intros r r' Hr. now apply rule_matches_agree.
  - intros l l' Hl. now apply rank_rel.
Qed.

Lemma run_rules_name_independent_witness :
  Forall2 agree_off_name default_rule_list
    (rename (VStr "anonymous") <$> default_rule_list) ∧
  result_rel (λ o o', o.1 = o'.1 ∧ Forall2 agree_off_name o.2 o'.2)
    (run_rules facts_A (VList default_rule_list))
    (run_rules facts_A
       (VList (rename (VStr "anonymous") <$> default_rule_list))).
Proof.
  assert (H : Forall2 agree_off_name default_rule_list
                (rename (VStr "anonymous") <$> default_rule_list)).
  { repeat constructor; apply agree_off_name_rename. }
  split; [exact H|].
  exact (run_rules_name_independent facts_A _ _ H).
Defined.

Example run_rules_renamed :
  run_rules facts_A (VList (rename (VStr "anonymous") <$> default_rule_list))
  = Ok (VDict
          [ ("decision", VStr "AWARD_FULL");
            ("reason",
              VStr "Excellent academic & co-curricular performance with acceptable need") ],
        [rename (VStr "anonymous") top_merit;
         rename (VStr "anonymous") good_candidate]).
Proof. vm_compute. reflexivity. Qed.

(** ** Exceptions *)

(** An ordered comparison raises nothing but [TypeError]. *)
Lemma py_order_raises (o : ordop) (a b : value) (e : exn) :
  py_order o a b = Raise e → e = TypeError.
Proof.
  revert b. induction a as [| | | | |l IH|d _] using value_nested_ind;
    intros [| | | | |m|]; simpl; try congruence.
  revert m. induction IH as [|x l Hx _ IHl]; intros [|y m]; try discriminate.
  destruct (py_eq x y); [apply IHl | apply Hx].
Qed.

Lemma py_contains_raises (a b : value) (e : exn) :
  py_contains a b = Raise e → e = TypeError.
Proof. destruct b, a; simpl; congruence. Qed.

(** So does every operator of [OPS]. *)
Lemma OPS_raises (op : string) (fn : value → value → result bool)
    (x y : value) (e : exn) :
  OPS !! op = Some fn → fn x y = Raise e → e = TypeError.
Proof.
  intros Hop. apply elem_of_list_to_map_2 in Hop. unfold OPS_items in Hop.
  repeat (apply elem_of_cons in Hop as [Hop|Hop];
          [injection Hop as -> ->|]);
    try (now apply elem_of_nil in Hop);
    try discriminate; try apply py_order_raises; try apply py_contains_raises.
  destruct (py_contains x y) eqn:Hc; simpl; [discriminate|].
  intros [= <-]. now apply py_contains_raises in Hc.
Qed.

Lemma well_shaped_condition_inv (c : value) :
  well_shaped_condition c = true →
  ∃ field op lit, c = VList [VStr field; VStr op; lit].
Proof.
  destruct c as [| | | | |l|]; try discriminate.
  destruct l as [|[] [|[] [|lit [|]]]]; try discriminate. eauto.
Qed.

Lemma evaluate_condition_raises (facts : gmap string value) (c : value)
    (e : exn) :
  well_shaped_condition c = true →
  evaluate_condition facts c = Raise e → e = TypeError.
Proof.
  intros (field & op & lit & ->)%well_shaped_condition_inv.
  rewrite evaluate_condition_triple.
  destruct (facts !! field); [|discriminate].
  destruct (OPS !! op) eqn:Hop; [|discriminate].
  now apply OPS_raises with op.
Qed.

Lemma py_all_raises (f : value → result bool) (l : list value) (e : exn) :
  py_all f l = Raise e → ∃ c, c ∈ l ∧ f c = Raise e.
Proof.
  induction l as [|c l IH]; [discriminate|].
  cbn [py_all]. destruct (f c) as [[]|e'] eqn:Hc; simpl.
  - intros (c' & Hin & Hc')%IH. exists c'. split; [now right | assumption].
  - discriminate.
  - intros [= ->]. exists c. split; [left | assumption].
Qed.

Lemma py_all_Ok (f : value → result bool) (l : list value) :
  Forall (λ c, ∃ b, f c = Ok b) l → ∃ b, py_all f l = Ok b.
Proof.
  induction 1 as [|c l [b Hc] _ [b' IH]]; [now exists true|].
  cbn [py_all]. rewrite Hc. destruct b; simpl; eauto.
Qed.

Lemma py_filter_raises (f : value → result bool) (l : list value) (e : exn) :
  py_filter f l = Raise e → ∃ r, r ∈ l ∧ f r = Raise e.
Proof.
  induction l as [|r l IH]; [discriminate|].
  cbn [py_filter]. destruct (f r) as [b|e'] eqn:Hr; simpl.
  - destruct (py_filter f l); [discriminate|]. simpl.
    intros [= ->]. destruct IH as (r' & Hin & Hr'); [reflexivity|].
    exists r'. split; [now right | assumption].
  - intros [= ->]. exists r. split; [left | assumption].
Qed.

Lemma rule_matches_raises (facts : gmap string value) (r : value) (e : exn) :
  well_shaped_rule r = true →
  rule_matches facts r = Raise e → e = TypeError.
Proof.
  intros (_ & (cs & Hcs & Hall) & _)%well_shaped_rule_inv.
  unfold rule_matches. rewrite Hcs. simpl.
  intros (c & Hin & Hc)%py_all_raises.
  apply (evaluate_condition_raises facts c); [|assumption].
  rewrite forallb_forall in Hall. apply Hall. now apply list_elem_of_In.
Qed.

(** On rules of the shape the engine assumes, [run_rules] raises
    nothing but [TypeError]. *)
Lemma run_rules_raises (facts : gmap string value) (rs : list value)
    (e : exn) :
  Forall (λ r, well_shaped_rule r = true) rs →
  run_rules facts (VList rs) = Raise e → e = TypeError.
Proof.
  intros Hws. rewrite run_rules_rank.
  destruct (py_filter (rule_matches facts) rs) as [matched|e'] eqn:Hf; simpl.
  - apply py_filter_Ok_inv in Hf as [_ ->].
    destruct (rank_well_shaped
                (filter (λ r, rule_matches facts r = Ok true) rs))
      as (a & ranked & -> & _); [|discriminate].
    apply Forall_forall. intros r [_ Hr]%list_elem_of_filter.
    rewrite Forall_forall in Hws. auto.
  - intros [= ->]. apply py_filter_raises in Hf as (r & Hin & Hr).
    apply (rule_matches_raises facts r); [|assumption].
    rewrite Forall_forall in Hws. auto.
Qed.

(** ** Conditions that cannot be evaluated *)

(** C7, as stated, fails: a literal that cannot be compared with the
    value of the fact, or a right operand of [in] that is not a
    container, makes the evaluation raise [TypeError], and [run_rules]
    raises with it instead of returning. *)
Lemma run_rules_incompatible_literal_raises :
  well_shaped_rule text_threshold = true
  ∧ run_rules facts_A (VList [text_threshold]) = Raise TypeError
  ∧ evaluate_condition facts_A (VList [VStr "cgpa"; VStr "in"; VInt 5])
    = Raise TypeError.
Proof. repeat split; vm_compute; reflexivity. Qed.

Lemma condition_tolerated_Ok (facts : gmap string value) (c : value) :
  condition_tolerated facts c → ∃ b, evaluate_condition facts c = Ok b.
Proof.
  intros (field & op & lit & -> & H). rewrite evaluate_condition_triple.
  destruct (facts !! field) as [x|] eqn:Hx; [|eauto].
  destruct H as [H|[H|[->|[->|(x' & fn & b & Hx' & Hop & Hb)]]]].
  - discriminate.
  - rewrite (OPS_lookup_None op H). eauto.
  - change (OPS !! "==") with (Some operator_eq). unfold operator_eq. eauto.
  - change (OPS !! "!=") with (Some operator_ne). unfold operator_ne. eauto.
  - rewrite Hop. injection Hx' as <-. eauto.
Qed.

(** The operators raise [TypeError] on operands they cannot be applied
    to. *)
Lemma incompatible_operands_raise (op : string)
    (fn : value → value → result bool) (x lit : value) :
  OPS !! op = Some fn →
  incompatible_operands op x lit →
  fn x lit = Raise TypeError.
Proof.
  intros Hop [[Ho Hxl]|[Ho Hlit]].
  - assert (Hord : ∃ o, fn = py_order o).
    { unfold ordered_ops in Ho.
      repeat (apply elem_of_cons in Ho as [->|Ho]);
        try (now apply elem_of_nil in Ho);
        injection Hop as <-; eexists; reflexivity. }
    destruct Hord as [o ->].
    destruct Hxl as [[[n Hx] [s ->]]|[[s ->] [n Hl]]].
    + destruct x; try discriminate; reflexivity.
    + destruct lit; try discriminate; reflexivity.
  - assert (Hc : py_contains x lit = Raise TypeError).
    { destruct Hlit as [->|[n Hl]]; [reflexivity|].
      destruct lit; try discriminate; reflexivity. }
    unfold membership_ops in Ho.
    repeat (apply elem_of_cons in Ho as [->|Ho]);
      try (now apply elem_of_nil in Ho).
    + change (OPS !! "in") with (Some (λ a b, py_contains a b)) in Hop.
      injection Hop as <-. exact Hc.
    + change (OPS !! "not_in")
        with (Some (λ a b, negb <$> py_contains a b)) in Hop.
      injection Hop as <-. cbv beta. now rewrite Hc.
Qed.

(** A condition after conditions that hold decides what matching the
    rule does. *)
Lemma rule_matches_reached (facts : gmap string value) (r : value)
    (conditions : value) (cpre cpost : list value) (c : value) :
  subscript r "conditions" = Ok conditions →
  py_iter conditions = Ok (cpre ++ c :: cpost) →
  Forall (λ c, evaluate_condition facts c = Ok true) cpre →
  rule_matches facts r
  = b ← evaluate_condition facts c;
    if (b : bool) then py_all (evaluate_condition facts) cpost else Ok false.
Proof.
  intros Hr Hcs Hpre. unfold rule_matches.
  rewrite Hr, bind_Ok, Hcs, bind_Ok.
  now rewrite (py_all_prefix _ cpre cpost c Hpre).
Qed.

(** C7, amended: on rules of the shape the engine assumes, [run_rules]
    returns whenever every condition can be evaluated, which a missing
    fact, an unrecognized operator symbol, [==] and [!=] always can; and
    when it does not return, what it raises is [TypeError].  A condition
    on a present fact that compares a number with a string under [>],
    [>=], [<] or [<=], or whose right operand of [in] or [not_in] is
    [None] or a number, makes [run_rules] raise [TypeError] whenever it
    is reached: matching returns on the rules before its rule, and the
    conditions before it in its rule hold. *)
Theorem run_rules_completes (facts : gmap string value) :
  (∀ rs,
     Forall (λ r, well_shaped_rule r = true) rs →
     (Forall (λ r, Forall (condition_tolerated facts) (conditions_of r)) rs →
      ∃ action ranked, run_rules facts (VList rs) = Ok (action, ranked))
     ∧ (∀ e, run_rules facts (VList rs) = Raise e → e = TypeError))
  ∧ (∀ pre post r conditions cpre cpost field op lit x,
       Forall (λ r, ∃ b, rule_matches facts r = Ok b) pre →
       subscript r "conditions" = Ok conditions →
       py_iter conditions
       = Ok (cpre ++ VList [VStr field; VStr op; lit] :: cpost) →
       Forall (λ c, evaluate_condition facts c = Ok true) cpre →
       facts !! field = Some x →
       incompatible_operands op x lit →
       run_rules facts (VList (pre ++ r :: post)) = Raise TypeError).
Proof.
  split.
  - intros rs Hws. split; [|intros e; now apply run_rules_raises].
    intros Htol. rewrite run_rules_rank.
    rewrite (py_filter_Ok (rule_matches facts) rs).
    + rewrite bind_Ok.
      destruct (rank_well_shaped
                  (filter (λ r, rule_matches facts r = Ok true) rs))
        as (a & ranked & Hrank & _); [|eauto].
      apply Forall_forall. intros r [_ Hr]%list_elem_of_filter.
      rewrite Forall_forall in Hws. auto.
    + rewrite Forall_forall in Hws, Htol. apply Forall_forall. intros r Hr.
      specialize (Htol r Hr). simpl in Htol.
      destruct (well_shaped_rule_inv r (Hws r Hr))
        as (_ & (cs & Hcs & _) & _).
      unfold conditions_of in Htol. rewrite Hcs in Htol.
      unfold rule_matches. rewrite Hcs. simpl.
      apply py_all_Ok. eapply Forall_impl; [exact Htol|].
      intros c Hc. now apply condition_tolerated_Ok.
  - intros pre post r conditions cpre cpost field op lit x
      Hpre Hr Hcs Hcpre Hx Hinc.
    rewrite run_rules_rank.
    rewrite (py_filter_prefix_raises _ pre post r TypeError Hpre);
      [reflexivity|].
    rewrite (rule_matches_reached facts r conditions cpre cpost _ Hr Hcs
               Hcpre).
    rewrite evaluate_condition_triple, Hx.
    assert (Hop : ∃ fn, OPS !! op = Some fn).
    { destruct (OPS !! op) as [fn|] eqn:Hop; [eauto|]. exfalso.
      assert (Hin : op ∈ recognized_ops).
      { unfold incompatible_operands, ordered_ops, membership_ops in Hinc.
        destruct Hinc as [[Ho _]|[Ho _]];
          repeat (apply elem_of_cons in Ho as [->|Ho]);
          try (now apply elem_of_nil in Ho);
          unfold recognized_ops; repeat constructor. }
      unfold recognized_ops in Hin.
      repeat (apply elem_of_cons in Hin as [->|Hin]);
        try (now apply elem_of_nil in Hin); discriminate Hop. }
    destruct Hop as [fn Hop]. rewrite Hop.
    now rewrite (incompatible_operands_raise op fn x lit Hop Hinc).
Qed.

Lemma run_rules_completes_witness :
  Forall (λ r, well_shaped_rule r = true) lenient_rules ∧
  Forall (λ r, Forall (condition_tolerated facts_B) (conditions_of r))
    lenient_rules ∧
  (∃ action ranked,
     run_rules facts_B (VList lenient_rules) = Ok (action, ranked)) ∧
  Forall (λ r, ∃ b, rule_matches facts_A r = Ok b) [top_merit] ∧
  incompatible_operands ">=" (VFloat 3.8%float) (VStr "high") ∧
  run_rules facts_A (VList ([top_merit] ++ text_threshold :: [low_cgpa]))
  = Raise TypeError.
Proof.
  assert (Hws : Forall (λ r, well_shaped_rule r = true) lenient_rules).
  { repeat constructor. }
  assert (Htol : Forall (λ r, Forall (condition_tolerated facts_B)
                                (conditions_of r)) lenient_rules).
  { repeat apply List.Forall_cons; try apply List.Forall_nil.
    - exists "semester", ">=", (VStr "x"). split; [reflexivity|].
      left. reflexivity.
    - exists "cgpa", "=>", (VInt 3). split; [reflexivity|].
      right. left. apply (bool_decide_unpack _). vm_compute. exact I.
    - exists "cgpa", "!=", (VStr "high"). split; [reflexivity|].
      right. right. right. left. reflexivity.
    - exists "cgpa", "<", (VFloat 2.5%float). split; [reflexivity|].
      right. right. right. right.
      exists (VFloat 2.0%float), operator_lt, true.
      repeat split; vm_compute; reflexivity. }
  assert (Hpre : Forall (λ r, ∃ b, rule_matches facts_A r = Ok b)
                   [top_merit]).
  { constructor; [exists true; vm_compute; reflexivity | constructor]. }
  assert (Hinc : incompatible_operands ">=" (VFloat 3.8%float)
                   (VStr "high")).
  { left. split; [unfold ordered_ops; repeat constructor|].
    left. split; [eexists; reflexivity | eexists; reflexivity]. }
  destruct (run_rules_completes facts_B) as [Hret _].
  destruct (run_rules_completes facts_A) as [_ Hraise].
  split; [exact Hws|]. split; [exact Htol|].
  split; [exact (proj1 (Hret lenient_rules Hws) Htol)|].
  split; [exact Hpre|]. split; [exact Hinc|].
  exact (Hraise [top_merit] [low_cgpa] text_threshold
           (VList [VList [VStr "cgpa"; VStr ">="; VStr "high"]])
           [] [] "cgpa" ">=" (VStr "high") (VFloat 3.8%float)
           Hpre eq_refl eq_refl (List.Forall_nil _) eq_refl Hinc).
Defined.

(** ** The rule document *)

(** C8, as stated, fails: a document that parses is handed to
    [run_rules] as it is, also when a rule lacks required keys or a
    condition has the wrong number of items; [run_rules] then raises. *)
Lemma ill_shaped_document_reaches_run_rules :
  load_rules (Parsed nameless_document) = nameless_document
  ∧ well_shaped_rule (VDict [("name", VStr "x")]) = false
  ∧ evaluate facts_A (Parsed nameless_document) = Raise KeyError
  ∧ load_rules (Parsed short_condition_document) = short_condition_document
  ∧ evaluate facts_A (Parsed short_condition_document) = Raise ValueError.
Proof. repeat split; vm_compute; reflexivity. Qed.

(** [run_rules] raises what matching its first rule raises. *)
Lemma run_rules_first_raises (facts : gmap string value) (r : value)
    (rest : list value) (e : exn) :
  rule_matches facts r = Raise e →
  run_rules facts (VList (r :: rest)) = Raise e.
Proof.
  intros Hr. rewrite run_rules_rank. cbn [py_filter]. now rewrite Hr.
Qed.

(** C8, amended: the only document rejected at the load boundary is one
    that does not parse, and the default rules, which are well-shaped,
    replace it.  A document that parses reaches [run_rules] unchanged,
    and [run_rules] raises when it reaches what is ill-shaped in it,
    that is, when matching returns on the rules before and, for a
    condition, the conditions before it in its rule hold: [KeyError] for
    a rule without the [conditions] key, [ValueError] for a condition
    that can be iterated over and does not have three items, and
    [TypeError] for a condition that cannot be iterated over. *)
Theorem load_rules_boundary :
  load_rules JSONDecodeError = DEFAULT_RULES
  ∧ Forall (λ r, well_shaped_rule r = true) default_rule_list
  ∧ (∀ v, load_rules (Parsed v) = v)
  ∧ (∀ facts pre post d,
       Forall (λ r, ∃ b, rule_matches facts r = Ok b) pre →
       assoc "conditions" d = None →
       evaluate facts (Parsed (VList (pre ++ VDict d :: post)))
       = Raise KeyError)
  ∧ (∀ facts pre post r conditions cpre cpost c items,
       Forall (λ r, ∃ b, rule_matches facts r = Ok b) pre →
       subscript r "conditions" = Ok conditions →
       py_iter conditions = Ok (cpre ++ c :: cpost) →
       Forall (λ c, evaluate_condition facts c = Ok true) cpre →
       py_iter c = Ok items →
       length items ≠ 3%nat →
       evaluate facts (Parsed (VList (pre ++ r :: post)))
       = Raise ValueError)
  ∧ (∀ facts pre post r conditions cpre cpost c,
       Forall (λ r, ∃ b, rule_matches facts r = Ok b) pre →
       subscript r "conditions" = Ok conditions →
       py_iter conditions = Ok (cpre ++ c :: cpost) →
       Forall (λ c, evaluate_condition facts c = Ok true) cpre →
       not_iterable c →
       evaluate facts (Parsed (VList (pre ++ r :: post)))
       = Raise TypeError).
Proof.
  split; [reflexivity|]. split; [repeat constructor|].
  split; [reflexivity|]. split; [|split].
  - intros facts pre post d Hpre Hd. unfold evaluate, load_rules.
    rewrite run_rules_rank.
    rewrite (py_filter_prefix_raises _ pre post (VDict d) KeyError Hpre);
      [reflexivity|].
    unfold rule_matches, subscript. now rewrite Hd.
  - intros facts pre post r conditions cpre cpost c items
      Hpre Hr Hcs Hcpre Hc Hlen.
    unfold evaluate, load_rules. rewrite run_rules_rank.
    rewrite (py_filter_prefix_raises _ pre post r ValueError Hpre);
      [reflexivity|].
    rewrite (rule_matches_reached facts r conditions cpre cpost c Hr Hcs
               Hcpre).
    unfold evaluate_condition, unpack3. rewrite Hc, bind_Ok.
    destruct items as [|? [|? [|? [|? ?]]]]; try reflexivity.
    now contradict Hlen.
  - intros facts pre post r conditions cpre cpost c Hpre Hr Hcs Hcpre Hc.
    unfold evaluate, load_rules. rewrite run_rules_rank.
    rewrite (py_filter_prefix_raises _ pre post r TypeError Hpre);
      [reflexivity|].
    rewrite (rule_matches_reached facts r conditions cpre cpost c Hr Hcs
               Hcpre).
    unfold evaluate_condition, unpack3.
    destruct Hc as [->|[n Hn]]; [reflexivity|].
    destruct c; try discriminate; reflexivity.
Qed.

Lemma load_rules_boundary_witness :
  Forall (λ r, ∃ b, rule_matches facts_A r = Ok b) [top_merit] ∧
  assoc "conditions" [("name", VStr "x")] = None ∧
  evaluate facts_A
    (Parsed (VList ([top_merit] ++ VDict [("name", VStr "x")] :: [low_cgpa])))
  = Raise KeyError ∧
  Forall (λ c, evaluate_condition facts_A c = Ok true)
    [VList [VStr "cgpa"; VStr ">="; VFloat 3.7%float]] ∧
  length [VStr "cgpa"; VStr ">="] ≠ 3%nat ∧
  evaluate facts_A
    (Parsed (VList ([top_merit] ++ late_short_condition :: [low_cgpa])))
  = Raise ValueError ∧
  not_iterable (VInt 5) ∧
  evaluate facts_A
    (Parsed (VList ([top_merit] ++ number_condition :: [low_cgpa])))
  = Raise TypeError.
Proof.
  assert (Hpre : Forall (λ r, ∃ b, rule_matches facts_A r = Ok b)
                   [top_merit]).
  { constructor; [exists true; vm_compute; reflexivity | constructor]. }
  assert (Hcpre : Forall (λ c, evaluate_condition facts_A c = Ok true)
                    [VList [VStr "cgpa"; VStr ">="; VFloat 3.7%float]]).
  { constructor; [vm_compute; reflexivity | constructor]. }
  assert (Hlen : length [VStr "cgpa"; VStr ">="] ≠ 3%nat) by discriminate.
  assert (Hnum : not_iterable (VInt 5)) by (right; eexists; reflexivity).
  destruct load_rules_boundary as (_ & _ & _ & Hkey & Harity & Hiter).
  split; [exact Hpre|]. split; [reflexivity|].
  split.
  { exact (Hkey facts_A [top_merit] [low_cgpa] [("name", VStr "x")]
             Hpre eq_refl). }
  split; [exact Hcpre|]. split; [exact Hlen|].
  split.
  { exact (Harity facts_A [top_merit] [low_cgpa] late_short_condition
             (VList [ VList [VStr "cgpa"; VStr ">="; VFloat 3.7%float];
                      VList [VStr "cgpa"; VStr ">="] ])
             [VList [VStr "cgpa"; VStr ">="; VFloat 3.7%float]] []
             (VList [VStr "cgpa"; VStr ">="]) [VStr "cgpa"; VStr ">="]
             Hpre eq_refl eq_refl Hcpre eq_refl Hlen). }
  split; [exact Hnum|].
  exact (Hiter facts_A [top_merit] [low_cgpa] number_condition
           (VList [VInt 5]) [] [] (VInt 5) Hpre eq_refl eq_refl
           (List.Forall_nil _) Hnum).
Defined.

(** ** The default rules *)

(** C10: every default rule has the keys [name], [priority],
    [conditions] and [action], an integer priority, and conditions that
    are lists of three items whose operator is a key of [OPS]: each
    condition unpacks and [op in OPS] is true for it, so that evaluating
    the default rules raises neither [ValueError] nor [KeyError],
    whatever the facts are. *)
Theorem DEFAULT_RULES_well_shaped :
  DEFAULT_RULES = VList default_rule_list
  ∧ Forall
      (λ r, well_shaped_rule r = true
            ∧ (∃ p, subscript r "priority" = Ok (VInt p))
            ∧ Forall
                (λ c, known_operator c = true
                      ∧ ∃ field op lit,
                          unpack3 c = Ok (VStr field, VStr op, lit)
                          ∧ op ∈ recognized_ops
                          ∧ contains_key OPS (VStr op) = Ok true)
                (conditions_of r))
      default_rule_list
  ∧ ∀ facts e, run_rules facts DEFAULT_RULES = Raise e → e = TypeError.
Proof.
  split; [reflexivity|]. split.
  - repeat apply List.Forall_cons; try apply List.Forall_nil;
      (split; [reflexivity|]); (split; [eexists; reflexivity|]);
      repeat apply List.Forall_cons; try apply List.Forall_nil;
      (split; [reflexivity|]); eexists _, _, _;
      (split; [reflexivity|]); (split; [|reflexivity]);
      apply (bool_decide_unpack _); vm_compute; exact I.
  - intros facts e. apply run_rules_raises. repeat constructor.
Qed.

Lemma DEFAULT_RULES_well_shaped_witness :
  run_rules facts_text DEFAULT_RULES = Raise TypeError.
Proof.
  destruct (run_rules facts_text DEFAULT_RULES) as [o|e] eqn:Hrun.
  - vm_compute in Hrun. discriminate Hrun.
  - f_equal.
    exact (proj2 (proj2 DEFAULT_RULES_well_shaped) facts_text e Hrun).
Defined.

(** * Further properties of the engine *)

(** ** Operators on a present fact *)

Lemma ord_holds_Z (o : ordop) (x y : Z) :
  ord_holds o (x ?= y) =
  match o with
  | OLt => bool_decide (x < y)
  | OLe => bool_decide (x ≤ y)
  | OGt => bool_decide (y < x)
  | OGe => bool_decide (y ≤ x)
  end.
Proof.
  destruct o; destruct (Z.compare_spec x y); simpl; symmetry;
    first [ apply bool_decide_eq_true_2; lia
          | apply bool_decide_eq_false_2; lia ].
Qed.

Lemma py_eq_int (x y : Z) : py_eq (VInt x) (VInt y) = bool_decide (x = y).
Proof.
  simpl. unfold num_eqb. simpl.
  destruct (Z.compare_spec x y); symmetry;
    first [ apply bool_decide_eq_true_2; lia
          | apply bool_decide_eq_false_2; lia ].
Qed.

(** X1: on an integer fact and an integer literal the six comparison
    operators are the comparisons of the integers, with the value of the
    fact on the left and the literal on the right. *)
Theorem evaluate_condition_int (facts : gmap string value) (field : string)
    (x y : Z) :
  facts !! field = Some (VInt x) →
  evaluate_condition facts (VList [VStr field; VStr "=="; VInt y])
    = Ok (bool_decide (x = y))
  ∧ evaluate_condition facts (VList [VStr field; VStr "!="; VInt y])
    = Ok (bool_decide (x ≠ y))
  ∧ evaluate_condition facts (VList [VStr field; VStr ">"; VInt y])
    = Ok (bool_decide (y < x))
  ∧ evaluate_condition facts (VList [VStr field; VStr ">="; VInt y])
    = Ok (bool_decide (y ≤ x))
  ∧ evaluate_condition facts (VList [VStr field; VStr "<"; VInt y])
    = Ok (bool_decide (x < y))
  ∧ evaluate_condition facts (VList [VStr field; VStr "<="; VInt y])
    = Ok (bool_decide (x ≤ y)).
Proof.
  intros Hx. rewrite !evaluate_condition_triple, Hx.
  change (OPS !! "==") with (Some operator_eq).
  change (OPS !! "!=") with (Some operator_ne).
  change (OPS !! ">") with (Some operator_gt).
  change (OPS !! ">=") with (Some operator_ge).
  change (OPS !! "<") with (Some operator_lt).
  change (OPS !! "<=") with (Some operator_le).
  unfold operator_eq, operator_ne, operator_gt, operator_ge, operator_lt,
    operator_le.
  rewrite py_eq_int.
  assert (Hord : ∀ o, py_order o (VInt x) (VInt y)
                      = Ok (ord_holds o (x ?= y))) by reflexivity.
  rewrite !Hord, !ord_holds_Z.
  repeat split. f_equal.
  destruct (decide (x = y)).
  - now rewrite bool_decide_true, bool_decide_false by auto.
  - now rewrite bool_decide_false, bool_decide_true by auto.
Qed.

Lemma evaluate_condition_int_witness :
  facts_C !! "disciplinary_actions" = Some (VInt 3) ∧
  evaluate_condition facts_C
    (VList [VStr "disciplinary_actions"; VStr ">="; VInt 2])
  = Ok (bool_decide (2 ≤ 3)).
Proof.
  split; [reflexivity|].
  exact (proj1 (proj2 (proj2 (proj2
           (evaluate_condition_int facts_C "disciplinary_actions" 3 2
              eq_refl))))).
Defined.

(** X2: on a present fact [!=] returns the negation of what [==]
    returns and [not_in] the negation of what [in] returns (and raises
    when [in] raises); on a missing fact the four of them are false, so
    that neither of a condition and its opposite holds. *)
Theorem evaluate_condition_opposites (facts : gmap string value)
    (field : string) (lit : value) :
  (is_Some (facts !! field) →
   evaluate_condition facts (VList [VStr field; VStr "!="; lit])
     = negb <$> evaluate_condition facts (VList [VStr field; VStr "=="; lit])
   ∧ evaluate_condition facts (VList [VStr field; VStr "not_in"; lit])
     = negb <$> evaluate_condition facts (VList [VStr field; VStr "in"; lit]))
  ∧ (facts !! field = None →
     ∀ op, evaluate_condition facts (VList [VStr field; VStr op; lit])
           = Ok false).
Proof.
  split.
  - intros [x Hx]. rewrite !evaluate_condition_triple, Hx. split; reflexivity.
  - intros Hx op. rewrite evaluate_condition_triple, Hx. reflexivity.
Qed.

Lemma evaluate_condition_opposites_witness :
  is_Some (facts_A !! "cgpa") ∧
  evaluate_condition facts_A
    (VList [VStr "cgpa"; VStr "not_in"; VList [VInt 4; VFloat 3.8%float]])
  = negb <$> evaluate_condition facts_A
      (VList [VStr "cgpa"; VStr "in"; VList [VInt 4; VFloat 3.8%float]]) ∧
  facts_A !! "semester" = None ∧
  evaluate_condition facts_A
    (VList [VStr "semester"; VStr "not_in"; VList [VInt 4]]) = Ok false.
Proof.
  assert (H : is_Some (facts_A !! "cgpa")) by (eexists; reflexivity).
  destruct (evaluate_condition_opposites facts_A "cgpa"
              (VList [VInt 4; VFloat 3.8%float])) as [Hp _].
  destruct (evaluate_condition_opposites facts_A "semester"
              (VList [VInt 4])) as [_ Hm].
  split; [exact H|]. split; [exact (proj2 (Hp H))|].
  split; [reflexivity|]. exact (Hm eq_refl "not_in").
Defined.

(** X3: [in] on an integer fact and a list of integers is membership
    among the integers. *)
Theorem evaluate_condition_in_int (facts : gmap string value)
    (field : string) (x : Z) (ys : list Z) :
  facts !! field = Some (VInt x) →
  evaluate_condition facts (VList [VStr field; VStr "in"; VList (VInt <$> ys)])
    = Ok (bool_decide (x ∈ ys))
  ∧ evaluate_condition facts
      (VList [VStr field; VStr "not_in"; VList (VInt <$> ys)])
    = Ok (bool_decide (x ∉ ys)).
Proof.
  intros Hx. rewrite !evaluate_condition_triple, Hx.
  change (OPS !! "in") with (Some (λ a b, py_contains a b)).
  change (OPS !! "not_in") with (Some (λ a b, negb <$> py_contains a b)).
  cbn [py_contains].
  assert (Hex : existsb (λ v, py_eq v (VInt x)) (VInt <$> ys)
                = bool_decide (x ∈ ys)).
  { induction ys as [|y ys IH]; [reflexivity|].
    rewrite fmap_cons. cbn [existsb]. rewrite IH, py_eq_int.
    destruct (decide (y = x)) as [->|Hne].
    - rewrite (bool_decide_true (x = x)) by reflexivity. simpl.
      symmetry. apply bool_decide_eq_true_2. left.
    - rewrite (bool_decide_false (y = x)) by assumption. simpl.
      apply bool_decide_ext. rewrite elem_of_cons.
      split; [now right | intros [Heq|Hin]; [congruence | assumption]]. }
  rewrite Hex. split; [reflexivity|]. simpl. f_equal.
  destruct (decide (x ∈ ys)).
  - now rewrite bool_decide_true, bool_decide_false by auto.
  - now rewrite bool_decide_false, bool_decide_true by auto.
Qed.

Lemma evaluate_condition_in_int_witness :
  facts_C !! "disciplinary_actions" = Some (VInt 3) ∧
  evaluate_condition facts_C
    (VList [VStr "disciplinary_actions"; VStr "in";
            VList (VInt <$> [1; 3; 5])])
  = Ok (bool_decide (3 ∈ [1; 3; 5])).
Proof.
  split; [reflexivity|].
  exact (proj1 (evaluate_condition_in_int facts_C "disciplinary_actions" 3
                  [1; 3; 5] eq_refl)).
Defined.

(** ** What evaluating a condition can raise *)

Lemma contains_key_raises {V : Type} (m : gmap string V) (key : value)
    (e : exn) :
  contains_key m key = Raise e → e = TypeError.
Proof. destruct key; simpl; congruence. Qed.

Lemma contains_key_true {V : Type} (m : gmap string V) (key : value) :
  contains_key m key = Ok true → ∃ s v, key = VStr s ∧ m !! s = Some v.
Proof.
  destruct key; simpl; try congruence.
  intros [= H]. apply bool_decide_eq_true_1 in H as [v Hv]. eauto.
Qed.

(** What a raising evaluation of a condition has raised. *)
Lemma evaluate_condition_raise_inv (facts : gmap string value)
    (cond : value) (e : exn) :
  evaluate_condition facts cond = Raise e →
  e = TypeError
  ∨ (e = ValueError
     ∧ ∃ items, py_iter cond = Ok items ∧ length items ≠ 3%nat).
Proof.
  unfold evaluate_condition, unpack3.
  destruct (py_iter cond) as [items|e'] eqn:Hit.
  2:{ destruct cond; simpl in Hit; try discriminate;
      injection Hit as <-; intros [= <-]; now left. }
  rewrite bind_Ok.
  destruct items as [|field [|op [|lit [|? ?]]]];
    try (intros [= <-]; right; split; [reflexivity|];
         eexists; split; [reflexivity | discriminate]).
  rewrite bind_Ok.
  destruct (contains_key facts field) as [[]|e1] eqn:Hf; simpl;
    [|discriminate|].
  2:{ intros [= <-]. left. now apply contains_key_raises in Hf. }
  destruct (contains_key OPS op) as [[]|e2] eqn:Hop; simpl;
    [|discriminate|].
  2:{ intros [= <-]. left. now apply contains_key_raises in Hop. }
  apply contains_key_true in Hf as (f & x & -> & Hx).
  apply contains_key_true in Hop as (o & fn & -> & Hfn).
  simpl. rewrite Hfn, Hx. simpl. intros H. left.
  now apply (OPS_raises o fn x lit).
Qed.

(** X4: evaluating a condition raises [ValueError] exactly when the
    condition can be iterated over and does not have three items;
    whatever else it raises is [TypeError].  It never raises [KeyError]:
    the two subscripts are guarded by the two membership tests. *)
Theorem evaluate_condition_exceptions (facts : gmap string value)
    (cond : value) :
  (∀ items, py_iter cond = Ok items → length items ≠ 3%nat →
            evaluate_condition facts cond = Raise ValueError)
  ∧ (∀ e, evaluate_condition facts cond = Raise e →
          e = TypeError
          ∨ (e = ValueError
             ∧ ∃ items, py_iter cond = Ok items ∧ length items ≠ 3%nat)).
Proof.
  split.
  - intros items Hit Hlen. unfold evaluate_condition, unpack3.
    rewrite Hit, bind_Ok.
    destruct items as [|? [|? [|? [|? ?]]]]; try reflexivity.
    now contradict Hlen.
  - intros e. apply evaluate_condition_raise_inv.
Qed.

Lemma evaluate_condition_exceptions_witness :
  py_iter (VList [VStr "cgpa"; VStr ">="]) = Ok [VStr "cgpa"; VStr ">="] ∧
  length [VStr "cgpa"; VStr ">="] ≠ 3%nat ∧
  evaluate_condition facts_A (VList [VStr "cgpa"; VStr ">="])
    = Raise ValueError ∧
  (TypeError = TypeError
   ∨ (TypeError = ValueError
      ∧ ∃ items, py_iter (VList [VStr "cgpa"; VStr ">="; VNone]) = Ok items
                 ∧ length items ≠ 3%nat)).
Proof.
  destruct (evaluate_condition_exceptions facts_A
              (VList [VStr "cgpa"; VStr ">="])) as [Hv _].
  destruct (evaluate_condition_exceptions facts_A
              (VList [VStr "cgpa"; VStr ">="; VNone])) as [_ Ht].
  split; [reflexivity|]. split; [discriminate|].
  split; [apply (Hv _ eq_refl); discriminate|].
  apply Ht. reflexivity.
Defined.

(** ** Matching a rule: conjunction and short circuit *)

(** X5: a rule with a list of conditions matches exactly when every one
    of its conditions evaluates to true. *)
Theorem rule_matches_conjunction (facts : gmap string value) (r : value)
    (conditions : value) (cs : list value) :
  subscript r "conditions" = Ok conditions →
  py_iter conditions = Ok cs →
  rule_matches facts r = Ok true
  ↔ Forall (λ c, evaluate_condition facts c = Ok true) cs.
Proof.
  intros Hr Hcs. unfold rule_matches. rewrite Hr, bind_Ok, Hcs, bind_Ok.
  apply py_all_true.
Qed.

Lemma rule_matches_conjunction_witness :
  subscript low_cgpa "conditions"
    = Ok (VList [VList [VStr "cgpa"; VStr "<"; VFloat 2.5%float]]) ∧
  py_iter (VList [VList [VStr "cgpa"; VStr "<"; VFloat 2.5%float]])
    = Ok [VList [VStr "cgpa"; VStr "<"; VFloat 2.5%float]] ∧
  (rule_matches facts_B low_cgpa = Ok true
   ↔ Forall (λ c, evaluate_condition facts_B c = Ok true)
       [VList [VStr "cgpa"; VStr "<"; VFloat 2.5%float]]).
Proof.
  split; [reflexivity|]. split; [reflexivity|].
  exact (rule_matches_conjunction facts_B low_cgpa _ _ eq_refl eq_refl).
Defined.

(** X6: the conditions of a rule are evaluated in order and only up to
    the first one that is not true: when it is false the rule does not
    match, and when it raises the rule raises the same, whatever the
    conditions after it are, which are not looked at. *)
Theorem rule_matches_short_circuit (facts : gmap string value) (r : value)
    (conditions : value) (pre post : list value) (c : value) :
  subscript r "conditions" = Ok conditions →
  py_iter conditions = Ok (pre ++ c :: post) →
  Forall (λ c, evaluate_condition facts c = Ok true) pre →
  (evaluate_condition facts c = Ok false → rule_matches facts r = Ok false)
  ∧ (∀ e, evaluate_condition facts c = Raise e →
          rule_matches facts r = Raise e).
Proof.
  intros Hr Hcs Hpre. unfold rule_matches.
  rewrite Hr, bind_Ok, Hcs, bind_Ok, (py_all_prefix _ pre post c Hpre).
  cbn [py_all]. split; [intros ->|intros e ->]; reflexivity.
Qed.

Lemma rule_matches_short_circuit_witness :
  rule_matches facts_D guarded_malformed = Ok false ∧
  rule_matches facts_B guarded_malformed = Raise ValueError.
Proof.
  assert (Hpre : Forall (λ c, evaluate_condition facts_B c = Ok true)
                   [VList [VStr "cgpa"; VStr "<"; VFloat 2.5%float]]).
  { constructor; [vm_compute; reflexivity | constructor]. }
  split.
  - apply (proj1 (rule_matches_short_circuit facts_D guarded_malformed
                    _ [] [VList [VStr "cgpa"]]
                    (VList [VStr "cgpa"; VStr "<"; VFloat 2.5%float])
                    eq_refl eq_refl (List.Forall_nil _))).
    vm_compute. reflexivity.
  - apply (proj2 (rule_matches_short_circuit facts_B guarded_malformed
                    _ [VList [VStr "cgpa"; VStr "<"; VFloat 2.5%float]] []
                    (VList [VStr "cgpa"]) eq_refl eq_refl Hpre)).
    vm_compute. reflexivity.
Defined.

(** ** Rule collections *)

Lemma utf8_chars_aux_cons (cur s : string) :
  ∃ c l, utf8_chars_aux cur s = c :: l.
Proof.
  revert cur. induction s as [|a s IH]; intros cur; simpl; [eauto|].
  destruct (utf8_continuation a); eauto.
Qed.

(** X7: a rule collection that is not a list.  An empty string and an
    empty dictionary have no items, and [run_rules] returns the fallback
    on them as on the empty list; on anything else that is not a list it
    raises [TypeError]. *)
Theorem run_rules_not_a_list (facts : gmap string value) (rules : value) :
  (empty_container rules → run_rules facts rules = Ok (fallback, []))
  ∧ ((∀ l, rules ≠ VList l) → ¬ empty_container rules →
     run_rules facts rules = Raise TypeError).
Proof.
  split.
  - intros [->|[->| ->]]; reflexivity.
  - intros Hlist Hne. unfold empty_container in Hne.
    destruct rules as [| | | |s|l|d]; try reflexivity.
    + destruct s as [|a s]; [tauto|].
      unfold run_rules. cbn [py_iter utf8_chars]. rewrite bind_Ok.
      destruct (utf8_chars_aux_cons (String a EmptyString) s) as (c & l & ->).
      rewrite fmap_cons.
      now rewrite (py_filter_first_raises _ _ _ TypeError).
    + now destruct (Hlist l).
    + destruct d as [|[k v] d]; [tauto|].
      unfold run_rules. cbn [py_iter]. rewrite bind_Ok, fmap_cons.
      now rewrite (py_filter_first_raises _ _ _ TypeError).
Qed.

Lemma run_rules_not_a_list_witness :
  empty_container (VDict []) ∧
  run_rules facts_A (VDict []) = Ok (fallback, []) ∧
  (∀ l, VInt 42 ≠ VList l) ∧
  ¬ empty_container (VInt 42) ∧
  run_rules facts_A (VInt 42) = Raise TypeError.
Proof.
  assert (He : empty_container (VDict [])) by (right; right; reflexivity).
  assert (Hl : ∀ l, VInt 42 ≠ VList l) by discriminate.
  assert (Hn : ¬ empty_container (VInt 42)).
  { intros [H|[H|H]]; discriminate H. }
  split; [exact He|].
  split; [exact (proj1 (run_rules_not_a_list facts_A (VDict [])) He)|].
  split; [exact Hl|]. split; [exact Hn|].
  exact (proj2 (run_rules_not_a_list facts_A (VInt 42)) Hl Hn).
Defined.

Lemma decorate_keys (key : value → result value) (l : list value)
    (kl : list (value * value)) :
  decorate key l = Ok kl → Forall (λ x, ∃ k, key x = Ok k) l.
Proof.
  revert kl. induction l as [|x l IH]; intros kl H; [constructor|].
  cbn [decorate] in H. inv_bind H. inv_bind H. constructor; eauto.
Qed.

Lemma sorted_reverse_keys (key : value → result value) (l s : list value) :
  sorted_reverse key l = Ok s → Forall (λ x, ∃ k, key x = Ok k) s.
Proof.
  intros H. assert (Hp := sorted_reverse_perm _ _ _ H).
  unfold sorted_reverse in H. inv_bind H.
  apply decorate_keys in Ha. now rewrite Hp.
Qed.

(** X8: whenever [run_rules] returns on a list of rules, whatever the
    rules are, matching has returned on every rule of the list; the
    ranked rules are the rules that match, each as often as it occurs in
    the list, and each of them has a [priority]; and the action is the
    fallback when no rule is ranked, else the [action] of the first
    ranked rule, which is a rule of the list. *)
Theorem run_rules_returns (facts : gmap string value) (rs : list value)
    (action : value) (ranked : list value) :
  run_rules facts (VList rs) = Ok (action, ranked) →
  Forall (λ r, ∃ b, rule_matches facts r = Ok b) rs
  ∧ ranked ≡ₚ filter (λ r, rule_matches facts r = Ok true) rs
  ∧ Forall (λ r, ∃ p, subscript r "priority" = Ok p) ranked
  ∧ match ranked with
    | [] => action = fallback
    | first :: _ => first ∈ rs ∧ subscript first "action" = Ok action
    end.
Proof.
  intros H. rewrite run_rules_rank in H. inv_bind H.
  apply py_filter_Ok_inv in Ha as [Hall ->].
  destruct (rank_Ok_inv _ _ _ H) as [Hperm Hact].
  split; [exact Hall|]. split; [exact Hperm|]. split.
  - destruct (filter (λ r, rule_matches facts r = Ok true) rs) as [|m ms].
    + symmetry in Hperm. apply Permutation_nil in Hperm. subst.
      constructor.
    + cbn [rank] in H. inv_bind H.
      destruct a as [|first rest]; [discriminate|]. inv_bind H.
      injection H as _ <-. now apply sorted_reverse_keys in Ha.
  - destruct ranked as [|first rest]; [exact Hact|].
    split; [|exact Hact].
    assert (Hin : first ∈ first :: rest) by left.
    rewrite Hperm in Hin. now apply list_elem_of_filter in Hin as [_ ?].
Qed.

Lemma run_rules_returns_witness :
  run_rules facts_E DEFAULT_RULES
  = Ok (VDict
          [ ("decision", VStr "REJECT");
            ("reason", VStr "Too many disciplinary records") ],
        [serious_disciplinary; need_based_review]) ∧
  [serious_disciplinary; need_based_review]
  ≡ₚ filter (λ r, rule_matches facts_E r = Ok true) default_rule_list.
Proof.
  split; [exact run_rules_reorders|].
  exact (proj1 (proj2 (run_rules_returns facts_E default_rule_list _ _
                         run_rules_reorders))).
Defined.

(** X9: an exception raised while matching a rule aborts [run_rules]:
    it raises what the first such rule raises, whatever rules come
    before and after it, also when one of them matches. *)
Theorem run_rules_propagates (facts : gmap string value)
    (pre post : list value) (r : value) (e : exn) :
  Forall (λ r, ∃ b, rule_matches facts r = Ok b) pre →
  rule_matches facts r = Raise e →
  run_rules facts (VList (pre ++ r :: post)) = Raise e.
Proof.
  intros Hpre Hr. rewrite run_rules_rank.
  now rewrite (py_filter_prefix_raises _ pre post r e Hpre Hr).
Qed.

Lemma run_rules_propagates_witness :
  Forall (λ r, ∃ b, rule_matches facts_A r = Ok b) [top_merit] ∧
  rule_matches facts_A text_threshold = Raise TypeError ∧
  run_rules facts_A (VList ([top_merit] ++ text_threshold :: [low_cgpa]))
  = Raise TypeError.
Proof.
  assert (Hpre : Forall (λ r, ∃ b, rule_matches facts_A r = Ok b)
                   [top_merit]).
  { constructor; [exists true; vm_compute; reflexivity | constructor]. }
  assert (Hr : rule_matches facts_A text_threshold = Raise TypeError).
  { vm_compute. reflexivity. }
  split; [exact Hpre|]. split; [exact Hr|].
  exact (run_rules_propagates facts_A [top_merit] [low_cgpa] text_threshold
           TypeError Hpre Hr).
Defined.

(** ** The governing rule *)

Lemma filter_head_split {A : Type} (P : A → Prop) `{!∀ x, Decision (P x)}
    (l t : list A) (x : A) :
  filter P l = x :: t →
  ∃ pre post, l = pre ++ x :: post ∧ Forall (λ y, ¬ P y) pre.
Proof.
  induction l as [|y l IH]; [discriminate|].
  rewrite filter_cons. destruct (decide (P y)) as [Hy|Hy].
  - intros [= -> _]. exists [], l. split; [reflexivity | constructor].
  - intros (pre & post & -> & Hpre)%IH.
    exists (y :: pre), post. split; [reflexivity | now constructor].
Qed.

(** X10: on rules of the shape the engine assumes, when some rule
    matches, the rule that governs is the first of the matching rules
    of highest priority: the matching rules before it in the input have
    a lower priority and those after it have none higher. *)
Theorem run_rules_winner (facts : gmap string value) (rs : list value) :
  Forall (λ r, well_shaped_rule r = true) rs →
  Forall (λ r, ∃ b, rule_matches facts r = Ok b) rs →
  filter (λ r, rule_matches facts r = Ok true) rs ≠ [] →
  ∃ action first rest pre post,
    run_rules facts (VList rs) = Ok (action, first :: rest)
    ∧ subscript first "action" = Ok action
    ∧ filter (λ r, rule_matches facts r = Ok true) rs = pre ++ first :: post
    ∧ Forall (λ r, priority_of r < priority_of first) pre
    ∧ Forall (λ r, priority_of r ≤ priority_of first) post.
Proof.
  intros Hws Hev Hne. rewrite run_rules_rank, (py_filter_Ok _ rs Hev), bind_Ok.
  set (matched := filter (λ r, rule_matches facts r = Ok true) rs) in *.
  assert (Hwm : Forall (λ r, well_shaped_rule r = true) matched).
  { apply Forall_forall. intros r [_ Hr]%list_elem_of_filter.
    rewrite Forall_forall in Hws. auto. }
  destruct (rank_well_shaped matched Hwm)
    as (action & ranked & Hrank & Hperm & Hsorted & Hstable).
  destruct ranked as [|first rest].
  { apply Permutation_nil in Hperm. contradiction. }
  apply rank_Ok_inv in Hrank as Hact. destruct Hact as [_ Hact].
  apply StronglySorted_cons in Hsorted as [Hmax _].
  assert (Hle : Forall (λ r, priority_of r ≤ priority_of first) matched).
  { rewrite <- Hperm. constructor; [lia | exact Hmax]. }
  specialize (Hstable (priority_of first)).
  rewrite filter_cons_True in Hstable by reflexivity. symmetry in Hstable.
  apply filter_head_split in Hstable as (pre & post & Hsplit & Hpre).
  exists action, first, rest, pre, post.
  rewrite Hsplit in Hle. apply Forall_app in Hle as [Hlpre Hlpost].
  apply Forall_cons in Hlpost as [_ Hlpost].
  repeat split; try assumption.
  apply Forall_forall. intros r Hr. rewrite Forall_forall in Hlpre, Hpre.
  specialize (Hlpre r Hr). specialize (Hpre r Hr). simpl in Hpre. lia.
Qed.

Lemma run_rules_winner_witness :
  Forall (λ r, well_shaped_rule r = true) tie_rules ∧
  Forall (λ r, ∃ b, rule_matches facts_D r = Ok b) tie_rules ∧
  filter (λ r, rule_matches facts_D r = Ok true) tie_rules ≠ [] ∧
  ∃ action first rest pre post,
    run_rules facts_D (VList tie_rules) = Ok (action, first :: rest)
    ∧ subscript first "action" = Ok action
    ∧ filter (λ r, rule_matches facts_D r = Ok true) tie_rules
      = pre ++ first :: post
    ∧ Forall (λ r, priority_of r < priority_of first) pre
    ∧ Forall (λ r, priority_of r ≤ priority_of first) post.
Proof.
  assert (Hws : Forall (λ r, well_shaped_rule r = true) tie_rules).
  { repeat constructor. }
  assert (Hev : Forall (λ r, ∃ b, rule_matches facts_D r = Ok b) tie_rules).
  { repeat constructor; exists true; reflexivity. }
  assert (Hne : filter (λ r, rule_matches facts_D r = Ok true) tie_rules
                ≠ []).
  { discriminate. }
  split; [exact Hws|]. split; [exact Hev|]. split; [exact Hne|].
  exact (run_rules_winner facts_D tie_rules Hws Hev Hne).
Defined.

(** A list in descending order of [prio] is determined by its items of
    each priority, in their order. *)
Lemma sorted_stable_unique (prio : value → Z) (l1 l2 : list value) :
  StronglySorted (λ a b, prio b ≤ prio a) l1 →
  StronglySorted (λ a b, prio b ≤ prio a) l2 →
  (∀ p, filter (λ r, prio r = p) l1 = filter (λ r, prio r = p) l2) →
  l1 = l2.
Proof.
  intros H1. revert l2. induction H1 as [|x l1 Hs1 IH Hx]; intros l2 H2 Hf.
  - destruct l2 as [|y l2]; [reflexivity|].
    specialize (Hf (prio y)). rewrite filter_cons_True in Hf by reflexivity.
    discriminate.
  - destruct l2 as [|y l2].
    { specialize (Hf (prio x)). rewrite filter_cons_True in Hf by reflexivity.
      discriminate. }
    apply StronglySorted_cons in H2 as [Hy H2].
    assert (Hxy : prio x = prio y).
    { destruct (decide (prio x = prio y)) as [|Hne]; [assumption|].
      exfalso.
      assert (Hx2 : x ∈ l2).
      { assert (Hin : x ∈ filter (λ r, prio r = prio x) (y :: l2)).
        { rewrite <- Hf, filter_cons_True by reflexivity. left. }
        rewrite filter_cons_False in Hin by congruence.
        now apply list_elem_of_filter in Hin as [_ ?]. }
      assert (Hy1 : y ∈ l1).
      { assert (Hin : y ∈ filter (λ r, prio r = prio y) (x :: l1)).
        { rewrite Hf, filter_cons_True by reflexivity. left. }
        rewrite filter_cons_False in Hin by congruence.
        now apply list_elem_of_filter in Hin as [_ ?]. }
      rewrite Forall_forall in Hx, Hy.
      specialize (Hx y Hy1). specialize (Hy x Hx2). simpl in *. lia. }
    assert (Heq : x = y).
    { specialize (Hf (prio x)).
      rewrite filter_cons_True in Hf by reflexivity.
      rewrite filter_cons_True in Hf by congruence. congruence. }
    subst y. f_equal. apply IH; [assumption|].
    intros p. specialize (Hf p). rewrite !filter_cons in Hf.
    destruct (decide (prio x = p)); congruence.
Qed.

Lemma py_filter_all_true (f : value → result bool) (l : list value) :
  Forall (λ r, f r = Ok true) l → py_filter f l = Ok l.
Proof.
  induction 1 as [|r l Hr _ IH]; [reflexivity|].
  cbn [py_filter]. now rewrite Hr, IH.
Qed.

(** X11: on rules of the shape the engine assumes, running the engine
    again on the ranked list it has returned returns the same action
    and the same ranked list. *)
Theorem run_rules_idempotent (facts : gmap string value) (rs : list value)
    (action : value) (ranked : list value) :
  Forall (λ r, well_shaped_rule r = true) rs →
  run_rules facts (VList rs) = Ok (action, ranked) →
  run_rules facts (VList ranked) = Ok (action, ranked).
Proof.
  intros Hws H. rewrite run_rules_rank in H. inv_bind H.
  apply py_filter_Ok_inv in Ha as [_ ->].
  set (matched := filter (λ r, rule_matches facts r = Ok true) rs) in *.
  assert (Hwm : Forall (λ r, well_shaped_rule r = true) matched).
  { apply Forall_forall. intros r [_ Hr]%list_elem_of_filter.
    rewrite Forall_forall in Hws. auto. }
  destruct (rank_well_shaped matched Hwm)
    as (a1 & l1 & Hrank & Hperm & Hsorted & Hstable).
  rewrite H in Hrank. injection Hrank as <- <-.
  assert (Htrue : Forall (λ r, rule_matches facts r = Ok true) ranked).
  { rewrite Hperm. apply Forall_forall.
    now intros r [Hr _]%list_elem_of_filter. }
  rewrite run_rules_rank, (py_filter_all_true _ ranked Htrue), bind_Ok.
  assert (Hwr : Forall (λ r, well_shaped_rule r = true) ranked).
  { now rewrite Hperm. }
  destruct (rank_well_shaped ranked Hwr)
    as (a2 & l2 & Hrank2 & Hperm2 & Hsorted2 & Hstable2).
  assert (l2 = ranked) as ->.
  { now apply (sorted_stable_unique priority_of). }
  rewrite Hrank2. f_equal. f_equal.
  apply rank_Ok_inv in H as [_ H]. apply rank_Ok_inv in Hrank2 as [_ H2].
  destruct ranked; congruence.
Qed.

Lemma run_rules_idempotent_witness :
  Forall (λ r, well_shaped_rule r = true) default_rule_list ∧
  run_rules facts_E (VList [serious_disciplinary; need_based_review])
  = Ok (VDict
          [ ("decision", VStr "REJECT");
            ("reason", VStr "Too many disciplinary records") ],
        [serious_disciplinary; need_based_review]).
Proof.
  assert (Hws : Forall (λ r, well_shaped_rule r = true) default_rule_list).
  { repeat constructor. }
  split; [exact Hws|].
  exact (run_rules_idempotent facts_E default_rule_list _ _ Hws
           run_rules_reorders).
Defined.

(** ** What run_rules can raise *)

Lemma subscript_raises (v : value) (k : string) (e : exn) :
  subscript v k = Raise e → e = KeyError ∨ e = TypeError.
Proof.
  destruct v; simpl; try (intros [= <-]; now right).
  destruct (assoc k d); [discriminate|]. intros [= <-]. now left.
Qed.

Lemma decorate_raises (key : value → result value) (l : list value)
    (e : exn) :
  decorate key l = Raise e → ∃ x, x ∈ l ∧ key x = Raise e.
Proof.
  induction l as [|x l IH]; [discriminate|].
  cbn [decorate]. destruct (key x) as [k|e'] eqn:Hk; simpl.
  - destruct (decorate key l); [discriminate|]. simpl. intros [= ->].
    destruct IH as (y & Hy & Hky); [reflexivity|].
    exists y. split; [now right | assumption].
  - intros [= ->]. exists x. split; [left | assumption].
Qed.

Lemma insert_by_key_raises (x : value * value) (l : list (value * value))
    (e : exn) :
  insert_by_key x l = Raise e → e = TypeError.
Proof.
  induction l as [|y l IH]; [discriminate|].
  cbn [insert_by_key].
  destruct (py_order OLt x.1 y.1) as [[]|e'] eqn:Hlt; simpl.
  - discriminate.
  - destruct (insert_by_key x l); [discriminate|]. simpl.
    intros [= ->]. now apply IH.
  - intros [= ->]. now apply py_order_raises in Hlt.
Qed.

Lemma sort_by_key_raises (acc l : list (value * value)) (e : exn) :
  sort_by_key acc l = Raise e → e = TypeError.
Proof.
  revert acc. induction l as [|x l IH]; intros acc; [discriminate|].
  cbn [sort_by_key].
  destruct (insert_by_key x acc) as [acc'|e'] eqn:Hins; simpl.
  - apply IH.
  - intros [= ->]. now apply insert_by_key_raises in Hins.
Qed.

Lemma rank_raises (matched : list value) (e : exn) :
  rank matched = Raise e → e = KeyError ∨ e = TypeError.
Proof.
  destruct matched as [|r matched]; [discriminate|]. cbn [rank].
  destruct (sorted_reverse (λ r, subscript r "priority") (r :: matched))
    as [s|e'] eqn:Hs; simpl.
  - destruct s as [|first rest].
    { apply sorted_reverse_perm, Permutation_nil in Hs. discriminate. }
    destruct (subscript first "action") eqn:Ha; [discriminate|]. simpl.
    intros [= ->]. now apply subscript_raises in Ha.
  - intros [= ->]. unfold sorted_reverse in Hs.
    destruct (decorate _ (r :: matched)) as [kl|e1] eqn:Hd; simpl in Hs.
    + destruct (sort_by_key [] (reverse kl)) eqn:Hsort; [discriminate|].
      simpl in Hs. injection Hs as ->. right.
      now apply sort_by_key_raises in Hsort.
    + injection Hs as ->. apply decorate_raises in Hd as (x & _ & Hx).
      now apply subscript_raises in Hx.
Qed.

(** X12: whatever the facts and the rules are, [run_rules] raises
    nothing but [KeyError], [TypeError] and [ValueError]; in
    particular [matched_sorted[0]] never raises [IndexError]. *)
Theorem run_rules_exceptions (facts : gmap string value) (rules : value)
    (e : exn) :
  run_rules facts rules = Raise e →
  e = KeyError ∨ e = TypeError ∨ e = ValueError.
Proof.
  unfold run_rules.
  destruct (py_iter rules) as [rs|e1] eqn:Hit; simpl.
  2:{ intros [= ->]. apply py_iter_raises in Hit. auto. }
  intros H.
  destruct (py_filter (rule_matches facts) rs) as [matched|e2] eqn:Hf;
    simpl in H.
  - fold (rank matched) in H. apply rank_raises in H. tauto.
  - injection H as ->. apply py_filter_raises in Hf as (r & _ & Hr).
    unfold rule_matches in Hr.
    destruct (subscript r "conditions") as [conds|e3] eqn:Hc; simpl in Hr.
    2:{ injection Hr as ->. apply subscript_raises in Hc. tauto. }
    destruct (py_iter conds) as [cs|e4] eqn:Hcs; simpl in Hr.
    2:{ injection Hr as ->. apply py_iter_raises in Hcs. auto. }
    apply py_all_raises in Hr as (c & _ & Hc').
    apply evaluate_condition_raise_inv in Hc' as [->|[-> _]]; auto.
Qed.

Lemma run_rules_exceptions_witness :
  run_rules facts_A nameless_document = Raise KeyError ∧
  (KeyError = KeyError ∨ KeyError = TypeError ∨ KeyError = ValueError).
Proof.
  assert (H : run_rules facts_A nameless_document = Raise KeyError).
  { vm_compute. reflexivity. }
  split; [exact H|].
  exact (run_rules_exceptions facts_A nameless_document KeyError H).
Defined.

(** ** The facts that matter *)

Lemma py_all_ext (f g : value → result bool) (l : list value) :
  (∀ c, c ∈ l → f c = g c) → py_all f l = py_all g l.
Proof.
  induction l as [|c l IH]; intros H; [reflexivity|].
  cbn [py_all]. rewrite (H c) by left.
  destruct (g c) as [[]|]; simpl; try reflexivity.
  apply IH. intros c' Hc'. apply H. now right.
Qed.

Lemma py_filter_ext (f g : value → result bool) (l : list value) :
  (∀ r, r ∈ l → f r = g r) → py_filter f l = py_filter g l.
Proof.
  induction l as [|r l IH]; intros H; [reflexivity|].
  cbn [py_filter]. rewrite (H r) by left.
  rewrite IH; [reflexivity|]. intros r' Hr'. apply H. now right.
Qed.

Lemma evaluate_condition_agree (facts facts' : gmap string value)
    (c : value) :
  (∀ field op lit, unpack3 c = Ok (VStr field, op, lit) →
                   facts !! field = facts' !! field) →
  evaluate_condition facts c = evaluate_condition facts' c.
Proof.
  intros H. unfold evaluate_condition.
  destruct (unpack3 c) as [[[field op] lit]|e]; [|reflexivity].
  rewrite !bind_Ok. destruct field; try reflexivity.
  specialize (H s op lit eq_refl). unfold contains_key, getitem.
  now rewrite H.
Qed.

(** X13: the outcome of [run_rules] depends on the facts only through
    the fields that the conditions of the rules name: two facts
    mappings that agree on these fields give the same outcome, result
    or exception. *)
Theorem run_rules_facts_agree (facts facts' : gmap string value)
    (rs : list value) :
  (∀ field, mentions rs field → facts !! field = facts' !! field) →
  run_rules facts (VList rs) = run_rules facts' (VList rs).
Proof.
  intros H. rewrite !run_rules_rank. f_equal.
  apply py_filter_ext. intros r Hr. unfold rule_matches.
  destruct (subscript r "conditions") as [conds|] eqn:Hc; [|reflexivity].
  rewrite !bind_Ok.
  destruct (py_iter conds) as [cs|] eqn:Hcs; [|reflexivity].
  rewrite !bind_Ok. apply py_all_ext. intros c Hin.
  apply evaluate_condition_agree. intros field op lit Hu.
  apply H. exists r, conds, cs, c, op, lit. auto.
Qed.

Lemma mentions_default (field : string) :
  mentions default_rule_list field → field ∈ default_fields.
Proof.
  intros (r & conds & cs & c & op & lit & Hr & Hc & Hcs & Hin & Hu).
  unfold default_rule_list in Hr.
  repeat (apply elem_of_cons in Hr as [->|Hr]);
    try (now apply elem_of_nil in Hr);
    simpl in Hc; injection Hc as <-; simpl in Hcs; injection Hcs as <-;
    repeat (apply elem_of_cons in Hin as [->|Hin]);
    try (now apply elem_of_nil in Hin);
    simpl in Hu; injection Hu as <- _ _;
    unfold default_fields; repeat constructor.
Qed.

Lemma run_rules_facts_agree_witness :
  (∀ field, mentions default_rule_list field →
            facts_A !! field = facts_A_semester !! field) ∧
  run_rules facts_A (VList default_rule_list)
  = run_rules facts_A_semester (VList default_rule_list).
Proof.
  assert (H : ∀ field, mentions default_rule_list field →
                       facts_A !! field = facts_A_semester !! field).
  { intros field Hf%mentions_default. unfold default_fields in Hf.
    repeat (apply elem_of_cons in Hf as [->|Hf]);
      try (now apply elem_of_nil in Hf); reflexivity. }
  split; [exact H|].
  exact (run_rules_facts_agree facts_A facts_A_semester default_rule_list H).
Defined.

(** ** The page: the facts it builds and the default rules *)

Lemma rule_matches_tolerated (facts : gmap string value) (r : value) :
  well_shaped_rule r = true →
  Forall (condition_tolerated facts) (conditions_of r) →
  ∃ b, rule_matches facts r = Ok b.
Proof.
  intros (_ & (cs & Hcs & _) & _)%well_shaped_rule_inv Htol.
  unfold conditions_of in Htol. rewrite Hcs in Htol.
  unfold rule_matches. rewrite Hcs, bind_Ok. cbn [py_iter]. rewrite bind_Ok.
  apply py_all_Ok. eapply Forall_impl; [exact Htol|].
  intros c Hc. now apply condition_tolerated_Ok.
Qed.

(** The governing action is the fallback or the action of a rule of the
    list. *)
Lemma run_rules_action (facts : gmap string value) (rs : list value)
    (action : value) (ranked : list value) :
  run_rules facts (VList rs) = Ok (action, ranked) →
  action = fallback ∨ ∃ r, r ∈ rs ∧ subscript r "action" = Ok action.
Proof.
  intros H. rewrite run_rules_rank in H. inv_bind H.
  apply py_filter_Ok_inv in Ha as [_ ->].
  apply rank_Ok_inv in H as [Hperm Hact].
  destruct ranked as [|first rest]; [now left|]. right.
  exists first. split; [|exact Hact].
  assert (Hin : first ∈ first :: rest) by left.
  rewrite Hperm in Hin. now apply list_elem_of_filter in Hin as [_ ?].
Qed.

Lemma default_rules_evaluate (cgpa : float)
    (income co_curricular service_hours semester disciplinary : Z) :
  Forall
    (λ r, ∃ b,
       rule_matches
         (facts_of_inputs cgpa income co_curricular service_hours semester
            disciplinary) r = Ok b)
    default_rule_list.
Proof.
  set (facts := facts_of_inputs cgpa income co_curricular service_hours
                  semester disciplinary).
  assert (Hc : facts !! "cgpa" = Some (VFloat cgpa)) by reflexivity.
  assert (Hi : facts !! "family_income" = Some (VFloat (float_of_Z income)))
    by reflexivity.
  assert (Ho : facts !! "co_curricular_score" = Some (VInt co_curricular))
    by reflexivity.
  assert (Hd : facts !! "disciplinary_actions" = Some (VInt disciplinary))
    by reflexivity.
  unfold default_rule_list.
  repeat apply List.Forall_cons; try apply List.Forall_nil;
    (apply rule_matches_tolerated; [reflexivity|]);
    repeat apply List.Forall_cons; try apply List.Forall_nil;
    eexists _, _, _; (split; [reflexivity|]);
    do 4 right; eexists _, _, _;
    (split; [first [exact Hc | exact Hi | exact Ho | exact Hd]|]);
    (split; reflexivity).
Qed.

(** X14: with the facts that the page builds from its inputs, whatever
    the inputs are, the default rules are evaluated without an
    exception, and the decision card can be drawn for the action
    returned: its decision is one of the four labels that have a
    colour.  The same holds when the edited rule document does not
    parse, since the default rules are then evaluated. *)
Theorem page_default_rules (cgpa : float)
    (income co_curricular service_hours semester disciplinary : Z) :
  0 ≤ income < 2 ^ 53 →
  ∃ action ranked color label reason,
    run_rules
      (facts_of_inputs cgpa income co_curricular service_hours semester
         disciplinary) DEFAULT_RULES = Ok (action, ranked)
    ∧ evaluate
        (facts_of_inputs cgpa income co_curricular service_hours semester
           disciplinary) JSONDecodeError = Ok (action, ranked)
    ∧ decision_card action = Ok (color, VStr label, reason)
    ∧ label ∈ decision_labels.
Proof.
  intros _.
  set (facts := facts_of_inputs cgpa income co_curricular service_hours
                  semester disciplinary).
  assert (Hev := default_rules_evaluate cgpa income co_curricular
                   service_hours semester disciplinary).
  fold facts in Hev.
  assert (Hws : Forall (λ r, well_shaped_rule r = true)
                  (filter (λ r, rule_matches facts r = Ok true)
                     default_rule_list)).
  { apply Forall_forall. intros r [_ Hr]%list_elem_of_filter.
    unfold default_rule_list in Hr.
    repeat (apply elem_of_cons in Hr as [->|Hr]);
      try (now apply elem_of_nil in Hr); reflexivity. }
  destruct (rank_well_shaped _ Hws) as (action & ranked & Hrank & _).
  assert (Hrun : run_rules facts DEFAULT_RULES = Ok (action, ranked)).
  { unfold DEFAULT_RULES.
    now rewrite run_rules_rank, (py_filter_Ok _ _ Hev), bind_Ok. }
  assert (Hcard : ∃ color label reason,
            decision_card action = Ok (color, VStr label, reason)
            ∧ label ∈ decision_labels).
  { destruct (run_rules_action facts default_rule_list action ranked Hrun)
      as [->|(r & Hr & Ha)].
    - eexists _, _, _. split; [reflexivity|].
      unfold decision_labels. repeat constructor.
    - unfold default_rule_list in Hr.
      repeat (apply elem_of_cons in Hr as [->|Hr]);
        try (now apply elem_of_nil in Hr);
        simpl in Ha; injection Ha as <-;
        eexists _, _, _; (split; [reflexivity|]);
        unfold decision_labels; repeat constructor. }
  destruct Hcard as (color & label & reason & Hcard & Hlabel).
  exists action, ranked, color, label, reason. auto.
Qed.

Lemma page_default_rules_witness :
  0 ≤ 6000 < 2 ^ 53 ∧
  ∃ action ranked color label reason,
    run_rules (facts_of_inputs 3.5%float 6000 70 30 4 0) DEFAULT_RULES
    = Ok (action, ranked)
    ∧ evaluate (facts_of_inputs 3.5%float 6000 70 30 4 0) JSONDecodeError
      = Ok (action, ranked)
    ∧ decision_card action = Ok (color, VStr label, reason)
    ∧ label ∈ decision_labels.
Proof.
  assert (H : 0 ≤ 6000 < 2 ^ 53) by (split; [discriminate | reflexivity]).
  split; [exact H|].
  exact (page_default_rules 3.5%float 6000 70 30 4 0 H).
Defined.

(** The page with its initial inputs: a partial award. *)
Example page_initial_inputs :
  run_rules (facts_of_inputs 3.5%float 6000 70 30 4 0) DEFAULT_RULES
  = Ok (VDict
          [ ("decision", VStr "AWARD_PARTIAL");
            ("reason",
              VStr "Good academic & involvement record with moderate need") ],
        [good_candidate]).
Proof. vm_compute. reflexivity. Qed.

(** X15: under the default rules the community service hours and the
    semester that the page asks for have no influence on the outcome. *)
Theorem page_unused_inputs (cgpa : float)
    (income co_curricular disciplinary : Z)
    (service_hours semester service_hours' semester' : Z) :
  0 ≤ income < 2 ^ 53 →
  run_rules
    (facts_of_inputs cgpa income co_curricular service_hours semester
       disciplinary) DEFAULT_RULES
  = run_rules
      (facts_of_inputs cgpa income co_curricular service_hours' semester'
         disciplinary) DEFAULT_RULES.
Proof.
  intros _. unfold DEFAULT_RULES. rewrite !run_rules_rank.
  apply (f_equal (λ m, m ≫= rank)).
  apply py_filter_ext. intros r Hr. unfold rule_matches.
  destruct (subscript r "conditions") as [conds|] eqn:Hc; [|reflexivity].
  rewrite !bind_Ok.
  destruct (py_iter conds) as [cs|] eqn:Hcs; [|reflexivity].
  rewrite !bind_Ok. apply py_all_ext. intros c Hin.
  apply evaluate_condition_agree. intros field op lit Hu.
  assert (Hf : field ∈ default_fields).
  { apply mentions_default. exists r, conds, cs, c, op, lit. auto. }
  unfold default_fields in Hf.
  repeat (apply elem_of_cons in Hf as [->|Hf]);
    try (now apply elem_of_nil in Hf); reflexivity.
Qed.

Lemma page_unused_inputs_witness :
  0 ≤ 6000 < 2 ^ 53 ∧
  run_rules (facts_of_inputs 3.5%float 6000 70 30 4 0) DEFAULT_RULES
  = run_rules (facts_of_inputs 3.5%float 6000 70 0 10 0) DEFAULT_RULES.
Proof.
  assert (H : 0 ≤ 6000 < 2 ^ 53) by (split; [discriminate | reflexivity]).
  split; [exact H|].
  exact (page_unused_inputs 3.5%float 6000 70 0 30 4 0 10 H).
Defined.

(** ** The decision card and the table of matched rules *)

(** X16: the decision card can be drawn exactly for an action that has
    a [reason] and whose [decision] is a string with a colour, that is,
    one of the four labels; for any other decision string drawing the
    card raises [KeyError], although [run_rules] returns such an action
    like any other. *)
Theorem decision_card_returns (action : value) :
  (∀ color decision reason,
     decision_card action = Ok (color, decision, reason)
     ↔ ∃ label,
         subscript action "decision" = Ok (VStr label)
         ∧ decision = VStr label
         ∧ label ∈ decision_labels
         ∧ decision_color !! label = Some color
         ∧ subscript action "reason" = Ok reason)
  ∧ (∀ label,
       subscript action "decision" = Ok (VStr label) →
       label ∉ decision_labels →
       decision_card action = Raise KeyError).
Proof.
  assert (Hkeys : ∀ label, label ∉ decision_labels →
                           decision_color !! label = None).
  { intros label Hl. unfold decision_color.
    now apply not_elem_of_list_to_map_1. }
  split.
  - intros color decision reason. unfold decision_card.
    destruct (subscript action "decision") as [d|e] eqn:Hd; simpl.
    2:{ split; [discriminate | intros (? & ? & _); discriminate]. }
    destruct d as [| | | |label| |]; simpl;
      try (split; [discriminate | intros (? & ? & _); discriminate]).
    destruct (decision_color !! label) as [col|] eqn:Hcol; simpl.
    + destruct (subscript action "reason") as [rsn|e] eqn:Hr; simpl.
      * split.
        -- intros [= <- <- <-]. exists label. repeat split; try assumption.
           destruct (decide (label ∈ decision_labels)) as [|Hn];
             [assumption|].
           apply Hkeys in Hn. congruence.
        -- intros (l & [= <-] & -> & _ & Hc & [= <-]). congruence.
      * split; [discriminate|].
        intros (l & _ & _ & _ & _ & ?). discriminate.
    + split; [discriminate|].
      intros (l & [= <-] & _ & _ & Hc & _). congruence.
  - intros label Hd Hl. unfold decision_card.
    rewrite Hd, bind_Ok. cbn [getitem]. now rewrite (Hkeys label Hl).
Qed.

Lemma decision_card_returns_witness :
  run_rules facts_A
    (VList [VDict [ ("name", VStr "Waiting list"); ("priority", VInt 1);
                    ("conditions", VList []);
                    ("action", waitlist_action) ]])
  = Ok (waitlist_action,
        [VDict [ ("name", VStr "Waiting list"); ("priority", VInt 1);
                 ("conditions", VList []);
                 ("action", waitlist_action) ]]) ∧
  subscript waitlist_action "decision" = Ok (VStr "WAITLIST") ∧
  ("WAITLIST" ∉ decision_labels) ∧
  decision_card waitlist_action = Raise KeyError ∧
  decision_card fallback
  = Ok ("#f39c12", VStr "REVIEW", VStr "No rule matched").
Proof.
  assert (Hl : "WAITLIST" ∉ decision_labels).
  { apply (bool_decide_unpack _). vm_compute. exact I. }
  split; [vm_compute; reflexivity|]. split; [reflexivity|].
  split; [exact Hl|]. split.
  - exact (proj2 (decision_card_returns waitlist_action) "WAITLIST"
             eq_refl Hl).
  - apply (proj1 (decision_card_returns fallback)).
    exists "REVIEW". repeat split. unfold decision_labels. repeat constructor.
Defined.

Lemma columns_well_shaped (cs : list value) :
  forallb well_shaped_condition cs = true →
  ∃ fields operators values,
    result_map (λ c, index c 0) cs = Ok fields
    ∧ result_map (λ c, index c 1) cs = Ok operators
    ∧ result_map (λ c, index c 2) cs = Ok values
    ∧ conditions_of_columns fields operators values = cs.
Proof.
  induction cs as [|c cs IH]; [now exists [], [], []|].
  cbn [forallb]. intros [Hc Hcs]%andb_true_iff.
  apply well_shaped_condition_inv in Hc as (f & o & v & ->).
  destruct (IH Hcs) as (fs & os & vs & H0 & H1 & H2 & Hz).
  exists (VStr f :: fs), (VStr o :: os), (v :: vs).
  cbn [result_map index]. rewrite H0, H1, H2.
  repeat split. now rewrite <- Hz.
Qed.

Lemma matched_rule_view_well_shaped (r : value) :
  well_shaped_rule r = true →
  ∃ name priority action fields operators values,
    matched_rule_view r
    = Ok (name, priority, action, (fields, operators, values))
    ∧ subscript r "name" = Ok name
    ∧ subscript r "priority" = Ok priority
    ∧ subscript r "action" = Ok action
    ∧ subscript r "conditions"
      = Ok (VList (conditions_of_columns fields operators values)).
Proof.
  intros Hws.
  destruct (well_shaped_rule_inv r Hws)
    as (Hp & (cs & Hcs & Hall) & a & Ha).
  assert (Hn : ∃ n, subscript r "name" = Ok n).
  { unfold well_shaped_rule in Hws.
    destruct (subscript r "name") as [[]|]; try discriminate. eauto. }
  destruct Hn as [n Hn].
  destruct (columns_well_shaped cs Hall) as (fs & os & vs & H0 & H1 & H2 & Hz).
  exists n, (VInt (priority_of r)), a, fs, os, vs.
  unfold matched_rule_view, column.
  rewrite Hn, Hp, Ha, Hcs. cbn [mbind result_bind py_iter].
  rewrite H0, H1, H2, Hz. auto.
Qed.

(** X17: the table of matched rules.  For the ranked rules that
    [run_rules] returns on rules of the shape the engine assumes, the
    page can show every rule: one view per ranked rule, in order, with
    the name, priority and action of the rule and three columns that
    hold, row by row, the field, the operator and the literal of its
    conditions. *)
Theorem matched_rules_view_returns (facts : gmap string value)
    (rs : list value) (action : value) (ranked : list value) :
  Forall (λ r, well_shaped_rule r = true) rs →
  run_rules facts (VList rs) = Ok (action, ranked) →
  ∃ views,
    matched_rules_view ranked = Ok views
    ∧ Forall2
        (λ r view,
           subscript r "name" = Ok view.1.1.1
           ∧ subscript r "priority" = Ok view.1.1.2
           ∧ subscript r "action" = Ok view.1.2
           ∧ subscript r "conditions"
             = Ok (VList (conditions_of_columns
                            view.2.1.1 view.2.1.2 view.2.2)))
        ranked views.
Proof.
  intros Hws H. rewrite run_rules_rank in H. inv_bind H.
  apply py_filter_Ok_inv in Ha as [_ ->].
  apply rank_Ok_inv in H as [Hperm _].
  assert (Hwr : Forall (λ r, well_shaped_rule r = true) ranked).
  { rewrite Hperm. apply Forall_forall.
    intros r [_ Hr]%list_elem_of_filter.
    rewrite Forall_forall in Hws. auto. }
  clear Hperm. unfold matched_rules_view.
  induction Hwr as [|r ranked Hr _ (views & Hv & Hall)].
  - exists []. split; [reflexivity | constructor].
  - destruct (matched_rule_view_well_shaped r Hr)
      as (n & p & a & fs & os & vs & Hview & Hn & Hp & Ha & Hc).
    exists ((n, p, a, (fs, os, vs)) :: views).
    cbn [result_map]. rewrite Hview, Hv. split; [reflexivity|].
    constructor; [|exact Hall]. simpl. auto.
Qed.

Lemma matched_rules_view_returns_witness :
  Forall (λ r, well_shaped_rule r = true) default_rule_list ∧
  ∃ views,
    matched_rules_view [serious_disciplinary; need_based_review] = Ok views
    ∧ Forall2
        (λ r view,
           subscript r "name" = Ok view.1.1.1
           ∧ subscript r "priority" = Ok view.1.1.2
           ∧ subscript r "action" = Ok view.1.2
           ∧ subscript r "conditions"
             = Ok (VList (conditions_of_columns
                            view.2.1.1 view.2.1.2 view.2.2)))
        [serious_disciplinary; need_based_review] views.
Proof.
  assert (Hws : Forall (λ r, well_shaped_rule r = true) default_rule_list).
  { repeat constructor. }
  split; [exact Hws|].
  exact (matched_rules_view_returns facts_E default_rule_list _ _ Hws
           run_rules_reorders).
Defined.

Example matched_rule_view_need_based :
  matched_rule_view need_based_review
  = Ok (VStr "Need-based review", VInt 70,
        VDict
          [ ("decision", VStr "REVIEW");
            ("reason", VStr "High need but borderline academic score") ],
        ([VStr "cgpa"; VStr "family_income"],
         [VStr ">="; VStr "<="],
         [VFloat 2.5%float; VInt 4000])).
Proof. vm_compute. reflexivity. Qed.

(** ** Changing the rule collection *)

Lemma py_filter_app (f : value → result bool) (l1 l2 : list value) :
  py_filter f (l1 ++ l2)
  = m1 ← py_filter f l1; m2 ← py_filter f l2; Ok (m1 ++ m2).
Proof.
  induction l1 as [|r l1 IH]; simpl.
  - now destruct (py_filter f l2).
  - destruct (f r) as [b|]; simpl; [|reflexivity]. rewrite IH.
    destruct (py_filter f l1); simpl; [|reflexivity].
    destruct (py_filter f l2); simpl; [|reflexivity].
    now destruct b.
Qed.

(** X18: a rule that does not match has no influence: removing it from
    the collection, wherever it stands and whatever the other rules are,
    leaves the outcome of [run_rules] as it is, result or exception. *)
Theorem run_rules_skip_unmatched (facts : gmap string value)
    (pre post : list value) (r : value) :
  rule_matches facts r = Ok false →
  run_rules facts (VList (pre ++ r :: post))
  = run_rules facts (VList (pre ++ post)).
Proof.
  intros Hr. rewrite !run_rules_rank, !py_filter_app.
  cbn [py_filter]. rewrite Hr, bind_Ok.
  destruct (py_filter (rule_matches facts) pre); simpl; [|reflexivity].
  now destruct (py_filter (rule_matches facts) post).
Qed.

Lemma run_rules_skip_unmatched_witness :
  rule_matches facts_A low_cgpa = Ok false ∧
  run_rules facts_A
    (VList ([top_merit; good_candidate; need_based_review]
            ++ low_cgpa :: [serious_disciplinary]))
  = run_rules facts_A
      (VList ([top_merit; good_candidate; need_based_review]
              ++ [serious_disciplinary])).
Proof.
  assert (H : rule_matches facts_A low_cgpa = Ok false).
  { vm_compute. reflexivity. }
  split; [exact H|].
  exact (run_rules_skip_unmatched facts_A
           [top_merit; good_candidate; need_based_review]
           [serious_disciplinary] low_cgpa H).
Defined.

Lemma filter_NoDup_fmap (prio : value → Z) (l : list value) (p : Z) :
  NoDup (prio <$> l) → (length (filter (λ r, prio r = p) l) ≤ 1)%nat.
Proof.
  induction l as [|x l IH]; [simpl; lia|].
  rewrite fmap_cons, NoDup_cons. intros [Hx Hl].
  rewrite filter_cons. destruct (decide (prio x = p)) as [<-|]; [|auto].
  rewrite (filter_none (λ r, prio r = prio x)); [simpl; lia|].
  apply Forall_forall. intros y Hy Heq. apply Hx.
  rewrite <- Heq. now apply list_elem_of_fmap_2.
Qed.

Lemma Permutation_short {A : Type} (l1 l2 : list A) :
  l1 ≡ₚ l2 → (length l1 ≤ 1)%nat → l1 = l2.
Proof.
  intros Hp Hlen. destruct l1 as [|x [|y l1]]; simpl in Hlen; try lia.
  - now apply Permutation_nil in Hp.
  - now apply Permutation_singleton_l in Hp.
Qed.

(** X19: on rules of the shape the engine assumes the order of the
    rules in the collection has no influence as long as the matching
    rules have different priorities: a collection and any rearrangement
    of it give the same action and the same ranked list. *)
Theorem run_rules_order_irrelevant (facts : gmap string value)
    (rs rs' : list value) :
  rs ≡ₚ rs' →
  Forall (λ r, well_shaped_rule r = true) rs →
  Forall (λ r, ∃ b, rule_matches facts r = Ok b) rs →
  NoDup (priority_of <$> filter (λ r, rule_matches facts r = Ok true) rs) →
  run_rules facts (VList rs) = run_rules facts (VList rs').
Proof.
  intros Hp Hws Hev Hnd.
  assert (Hws' : Forall (λ r, well_shaped_rule r = true) rs')
    by now rewrite <- Hp.
  assert (Hev' : Forall (λ r, ∃ b, rule_matches facts r = Ok b) rs')
    by now rewrite <- Hp.
  rewrite !run_rules_rank, (py_filter_Ok _ rs Hev), (py_filter_Ok _ rs' Hev').
  rewrite !bind_Ok.
  set (m := filter (λ r, rule_matches facts r = Ok true) rs) in *.
  set (m' := filter (λ r, rule_matches facts r = Ok true) rs').
  assert (Hm : m ≡ₚ m') by (unfold m, m'; now rewrite Hp).
  assert (Hwm : Forall (λ r, well_shaped_rule r = true) m).
  { apply Forall_forall. intros r [_ Hr]%list_elem_of_filter.
    rewrite Forall_forall in Hws. auto. }
  assert (Hwm' : Forall (λ r, well_shaped_rule r = true) m')
    by now rewrite <- Hm.
  destruct (rank_well_shaped m Hwm) as (a & l & Hr & Hpl & Hsl & Hfl).
  destruct (rank_well_shaped m' Hwm') as (a' & l' & Hr' & Hpl' & Hsl' & Hfl').
  assert (l = l') as <-.
  { apply (sorted_stable_unique priority_of); [assumption..|].
    intros p. rewrite Hfl, Hfl'. apply Permutation_short.
    - now rewrite Hm.
    - now apply filter_NoDup_fmap. }
  rewrite Hr, Hr'. f_equal. f_equal.
  apply rank_Ok_inv in Hr as [_ Hr]. apply rank_Ok_inv in Hr' as [_ Hr'].
  destruct l; congruence.
Qed.

Lemma run_rules_order_irrelevant_witness :
  default_rule_list ≡ₚ reverse default_rule_list ∧
  Forall (λ r, well_shaped_rule r = true) default_rule_list ∧
  Forall (λ r, ∃ b, rule_matches facts_E r = Ok b) default_rule_list ∧
  NoDup (priority_of
           <$> filter (λ r, rule_matches facts_E r = Ok true)
                 default_rule_list) ∧
  run_rules facts_E (VList default_rule_list)
  = run_rules facts_E (VList (reverse default_rule_list)).
Proof.
  assert (Hp : default_rule_list ≡ₚ reverse default_rule_list).
  { symmetry. apply reverse_Permutation. }
  assert (Hws : Forall (λ r, well_shaped_rule r = true) default_rule_list).
  { repeat constructor. }
  assert (Hev : Forall (λ r, ∃ b, rule_matches facts_E r = Ok b)
                  default_rule_list).
  { repeat constructor; eexists; vm_compute; reflexivity. }
  assert (Hnd : NoDup (priority_of
                         <$> filter (λ r, rule_matches facts_E r = Ok true)
                               default_rule_list)).
  { apply (bool_decide_unpack _). vm_compute. exact I. }
  split; [exact Hp|]. split; [exact Hws|]. split; [exact Hev|].
  split; [exact Hnd|].
  exact (run_rules_order_irrelevant facts_E _ _ Hp Hws Hev Hnd).
Defined.
